(** * Cash custody ledger

    A shallow embedding of the store and ledger functions of
    [streamlit-Cash-Custody-app.py]: the two SQLite tables, the
    [sqlite_sequence] bookkeeping of their AUTOINCREMENT keys, the functions
    [init_database], [get_accounts], [get_transactions], [add_account],
    [add_transaction], [export_transactions] and [reset_application], and the
    script that calls them.

    Modelling conventions.
    - A table is the list of its rows in rowid order; an INSERT appends.
    - A REAL value is an IEEE binary64 double ([float]).  SQLite stores no
      NaN (it becomes NULL), reads a stored minus zero back as zero, and
      gives NULL for arithmetic on NULL or with a NaN result.
    - An argument of the program's functions is a Python value: [None] is
      allowed wherever the program does not exclude it, and an [int] is
      unbounded.  The [sqlite3] module refuses an [int] outside the signed
      64-bit range when it binds the parameters of a statement.
    - A [str] is the list of its characters.
    - A row id is a [Z]; the 2^63-1 ceiling of the AUTOINCREMENT counter is
      not modelled.
    - The program never issues [PRAGMA foreign_keys = ON], so SQLite does not
      enforce the FOREIGN KEY clauses of the [transactions] table.
    - Each function opens its own connection; statements run inside the
      implicit transaction of the [sqlite3] module and become durable at
      [conn.commit()].  An exception raised by a statement leaves the
      function before the commit, and the uncommitted work is dropped.
    - The upload folder is a map from paths to files.  What [open] and
      [write] do with an uploaded file is for the file system to say and is
      part of the input of a run, as is the time a run exports at. *)

From Stdlib Require Import ZArith QArith Qcanon Lia Uint63 PrimFloat SpecFloat
  FloatOps.
From stdpp Require Import base option strings list gmap.

Local Open Scope Z_scope.

Abbreviation REAL := float (only parsing).

(** An integer literal used as a REAL value (exact below 2^53). *)
Definition real (z : Z) : REAL :=
  if z <? 0 then PrimFloat.opp (PrimFloat.of_uint63 (Uint63.of_Z (- z)))
  else PrimFloat.of_uint63 (Uint63.of_Z z).

(** [sqlite3_bind_double]: a NaN parameter is bound as NULL. *)
Definition bind_double (x : REAL) : option REAL :=
  if PrimFloat.is_nan x then None else Some x.

(** What a REAL column gives back of a double stored in it: no NaN, and zero
    for minus zero (a double without fraction is kept as an integer). *)
Definition sqlite_real (x : REAL) : option REAL :=
  if PrimFloat.is_nan x then None
  else if PrimFloat.is_zero x then Some 0%float
  else Some x.

(** [a + b] and [a - b] on REAL operands, stored back in a REAL column. *)
Definition sql_arith (op : REAL → REAL → REAL) (a b : option REAL)
  : option REAL :=
  match a, b with
  | Some x, Some y => sqlite_real (op x y)
  | _, _ => None
  end.

(** ** Rows and tables *)

(** [accounts (id, name, balance)]; [balance] may be NULL. *)
Record account := Account {
  a_id : Z;
  a_name : string;
  a_balance : option REAL
}.

(** [transactions (id, date, type, description, amount, from_account_id,
    to_account_id, file_path)]; [date], [type] and [amount] are NOT NULL. *)
Record transaction := Transaction {
  t_id : Z;
  t_date : string;
  t_type : string;
  t_description : option string;
  t_amount : REAL;
  t_from_account_id : option Z;
  t_to_account_id : option Z;
  t_file_path : option string
}.

(** The database file: both tables and [sqlite_sequence], which holds for
    each AUTOINCREMENT table the largest rowid handed out so far. *)
Record database := Database {
  accounts : list account;
  transactions : list transaction;
  sqlite_sequence : gmap string Z
}.

(** The argument tuple of [add_transaction]:
    [(date, type, description, amount, from_account_id, to_account_id,
    file_path)], each component a Python value or [None]. *)
Definition transaction_data : Type :=
  option string * option string * option string * option REAL *
  option Z * option Z * option string.

(** ** Exceptions and the statement monad *)

(** The exceptions of the [sqlite3] module carry their message; the message
    of the spreadsheet writer's exceptions quotes the cell or the size it
    refuses and is left out, as is what the operating system reports. *)
Inductive exception :=
| IntegrityError (msg : string)
| OverflowError (msg : string)
| IllegalCharacterError
| ValueError
| OSError.

Inductive result (A : Type) :=
| Ok (a : A)
| Raise (e : exception).
Arguments Ok {A} a.
Arguments Raise {A} e.

(** A cursor action: it reads and writes the working copy of the database
    held by the open connection, or raises. *)
Definition cursor (A : Type) : Type := database → result (A * database).

#[global] Instance cursor_ret : MRet cursor := λ A a db, Ok (a, db).
#[global] Instance cursor_bind : MBind cursor := λ A B f c db,
  match c db with
  | Ok (a, db') => f a db'
  | Raise e => Raise e
  end.

(** How a call of one of the program's functions ends. *)
Inductive outcome :=
| Returned
| Raised (e : exception).

(** [conn = sqlite3.connect(...); ...; conn.commit(); conn.close()]:
    the script runs on a working copy, which replaces the durable database
    only when the commit is reached. *)
Definition with_connection (script : cursor ()) (db : database)
  : database * outcome :=
  match script db with
  | Ok (_, db') => (db', Returned)
  | Raise e => (db, Raised e)
  end.

(** ** SQL statements *)

(** The largest rowid present in a table, 0 when it is empty. *)
Definition max_rowid (ids : list Z) : Z := foldr Z.max 0 ids.

(** The rowid AUTOINCREMENT picks: one more than the largest rowid the table
    has ever held. *)
Definition next_rowid (table : string) (ids : list Z) (db : database) : Z :=
  Z.max (default 0 (sqlite_sequence db !! table)) (max_rowid ids) + 1.

(** [INSERT INTO accounts (name, balance) VALUES (?, ?)]; the UNIQUE
    constraint on [name] rejects a name already in the table. *)
Definition insert_account (name : string) (balance : REAL) : cursor () :=
  λ db,
    if existsb (λ a, String.eqb (a_name a) name) (accounts db)
    then Raise (IntegrityError "UNIQUE constraint failed: accounts.name")
    else
      let id := next_rowid "accounts" (a_id <$> accounts db) db in
      Ok ((), {| accounts := accounts db ++
                   [Account id name (sqlite_real balance)];
                 transactions := transactions db;
                 sqlite_sequence := <["accounts" := id]> (sqlite_sequence db) |}).

(** Does the [sqlite3] module bind this Python [int] (or [None])?  An [int]
    must fit a signed 64-bit integer. *)
Definition fits_int64 (id : option Z) : bool :=
  match id with
  | None => true
  | Some z => (- 2 ^ 63 <=? z) && (z <? 2 ^ 63)
  end.

(** [INSERT INTO transactions (date, type, description, amount,
    from_account_id, to_account_id, file_path) VALUES (?, ?, ?, ?, ?, ?, ?)].
    Binding the parameters comes first and raises OverflowError; the NOT
    NULL columns are then checked in the order of the table. *)
Definition insert_transaction (transaction_data : transaction_data) : cursor () :=
  λ db,
    let '(date, type, description, amount, from_account_id, to_account_id,
          file_path) := transaction_data in
    if negb (fits_int64 from_account_id && fits_int64 to_account_id)
    then Raise (OverflowError "Python int too large to convert to SQLite INTEGER")
    else
      match date, type, amount ≫= sqlite_real with
      | None, _, _ =>
          Raise (IntegrityError "NOT NULL constraint failed: transactions.date")
      | Some _, None, _ =>
          Raise (IntegrityError "NOT NULL constraint failed: transactions.type")
      | Some _, Some _, None =>
          Raise (IntegrityError "NOT NULL constraint failed: transactions.amount")
      | Some date, Some type, Some amount =>
          let id := next_rowid "transactions" (t_id <$> transactions db) db in
          Ok ((), {| accounts := accounts db;
                     transactions := transactions db ++
                       [Transaction id date type description amount
                                    from_account_id to_account_id file_path];
                     sqlite_sequence :=
                       <["transactions" := id]> (sqlite_sequence db) |})
      end.

(** [UPDATE accounts SET balance = <f balance> WHERE id = ?].  The parameter
    is a Python value, so it may be [None]; [id = NULL] selects no row. *)
Definition update_balance (f : option REAL → option REAL) (id : option Z)
  : cursor () :=
  λ db,
    Ok ((), {| accounts :=
                 (λ a, if decide (Some (a_id a) = id)
                       then Account (a_id a) (a_name a) (f (a_balance a))
                       else a) <$> accounts db;
               transactions := transactions db;
               sqlite_sequence := sqlite_sequence db |}).

(** [UPDATE accounts SET balance = balance + ? WHERE id = ?] *)
Definition update_balance_plus (amount : option REAL) (id : option Z) : cursor () :=
  update_balance
    (λ balance, sql_arith PrimFloat.add balance (amount ≫= bind_double)) id.

(** [UPDATE accounts SET balance = balance - ? WHERE id = ?] *)
Definition update_balance_minus (amount : option REAL) (id : option Z) : cursor () :=
  update_balance
    (λ balance, sql_arith PrimFloat.sub balance (amount ≫= bind_double)) id.

(** [DELETE FROM accounts] *)
Definition delete_accounts : cursor () := λ db,
  Ok ((), {| accounts := [];
             transactions := transactions db;
             sqlite_sequence := sqlite_sequence db |}).

(** [DELETE FROM transactions] *)
Definition delete_transactions : cursor () := λ db,
  Ok ((), {| accounts := accounts db;
             transactions := [];
             sqlite_sequence := sqlite_sequence db |}).

(** [DELETE FROM sqlite_sequence WHERE name = ?] *)
Definition delete_sequence (name : string) : cursor () := λ db,
  Ok ((), {| accounts := accounts db;
             transactions := transactions db;
             sqlite_sequence := delete name (sqlite_sequence db) |}).

(** ** The program's functions *)

(** Truth value of an account id in [if to_account_id:]: [None] and [0] are
    false. *)
Definition truthy (id : option Z) : bool :=
  match id with
  | None => false
  | Some z => negb (z =? 0)
  end.

(** [transaction_type == "..."]: [None] equals no string. *)
Definition py_eq (x : option string) (s : string) : bool :=
  match x with
  | Some t => String.eqb t s
  | None => false
  end.

(** [if cond: stmt] *)
Definition when (cond : bool) (stmt : cursor ()) : cursor () :=
  if cond then stmt else mret ().

(** [init_database]: both tables are created when they do not exist yet.
    [None] stands for a database file that does not exist. *)
Definition init_database (file : option database) : database :=
  match file with
  | Some db => db
  | None => {| accounts := []; transactions := []; sqlite_sequence := ∅ |}
  end.

(** [get_accounts]: [SELECT id, name, balance FROM accounts]. *)
Definition get_accounts (db : database) : list account := accounts db.

(** [add_account] *)
Definition add_account (name : string) (balance : REAL) (db : database)
  : database * outcome :=
  with_connection (insert_account name balance) db.

(** [add_transaction] *)
Definition add_transaction (transaction_data : transaction_data) (db : database)
  : database * outcome :=
  with_connection
    (insert_transaction transaction_data;;
     let '(_, transaction_type, _, amount, from_account_id, to_account_id, _) :=
       transaction_data in
     if py_eq transaction_type "DEPOSIT" then
       when (truthy to_account_id) (update_balance_plus amount to_account_id);;
       when (truthy from_account_id) (update_balance_minus amount from_account_id)
     else if py_eq transaction_type "TRANSFER" then
       when (truthy from_account_id) (update_balance_minus amount from_account_id);;
       when (truthy to_account_id) (update_balance_plus amount to_account_id)
     else if py_eq transaction_type "EXPENSE" then
       when (truthy from_account_id) (update_balance_minus amount from_account_id);;
       when (truthy to_account_id) (update_balance_plus amount to_account_id)
     else mret ())
    db.

(** ** Queries, export and reset *)

(** A Python value in a row returned by [cursor.fetchall()]. *)
Inductive py_value :=
| PyNone
| PyInt (z : Z)
| PyStr (s : string)
| PyFloat (q : REAL).

Definition py_opt_str (o : option string) : py_value :=
  match o with
  | Some s => PyStr s
  | None => PyNone
  end.

(** [LEFT JOIN accounts a ON <id> = a.id], projected on [a.name]: one result
    per matching account, and a single NULL when no account matches. *)
Definition left_join_name (id : option Z) (accs : list account)
  : list (option string) :=
  match filter (λ a, Some (a_id a) = id) accs with
  | [] => [None]
  | matching => (λ a, Some (a_name a)) <$> matching
  end.

(** [get_transactions]: the joined view, with the transaction id. *)
Definition get_transactions (db : database) : list (list py_value) :=
  t ← transactions db;
  from_account ← left_join_name (t_from_account_id t) (accounts db);
  to_account ← left_join_name (t_to_account_id t) (accounts db);
  [[PyInt (t_id t); PyStr (t_date t); PyStr (t_type t);
    py_opt_str (t_description t); PyFloat (t_amount t);
    py_opt_str from_account; py_opt_str to_account;
    py_opt_str (t_file_path t)]].

(** [pd.DataFrame(rows, columns=...)] *)
Record DataFrame := {
  columns : list string;
  rows : list (list py_value)
}.

Definition DB_DIR : string := "./data".
Definition UPLOAD_FOLDER : string := "./uploads/".

Fixpoint endswith_sep (s : string) : bool :=
  match s with
  | EmptyString => false
  | String _ EmptyString => String.eqb s "/"
  | String _ rest => endswith_sep rest
  end.

(** [os.path.join(a, b)] on a POSIX system. *)
Definition os_path_join (a b : string) : string :=
  if String.prefix "/" b then b
  else if (String.eqb a EmptyString || endswith_sep a)%bool then a +:+ b
  else a +:+ "/" +:+ b.

Definition DB_FILENAME : string := os_path_join DB_DIR "cash_custody.db".

(** ** The export file *)

(** A file of the upload folder: a workbook written by [df.to_excel], with
    the table it was written from and the time it was written at (the
    writer stamps the container with it); what a failed write leaves; or an
    uploaded attachment.  How the writer renders a cell is not modelled. *)
Inductive disk_file :=
| Workbook (sheet : DataFrame) (written : Z)
| Partial
| Uploaded (content : string).

(** The characters the writer refuses in a text cell: the control characters
    other than tab, line feed and carriage return. *)
Definition illegal_character (c : Ascii.ascii) : bool :=
  let n := Ascii.N_of_ascii c in
  ((n <=? 8) || (n =? 11) || (n =? 12) || ((14 <=? n) && (n <=? 31)))%N.

(** A text cell is cut to 32767 characters and then checked. *)
Definition check_string (s : string) : bool :=
  forallb (λ c, negb (illegal_character c))
          (take (N.to_nat 32767) (String.list_ascii_of_string s)).

Definition check_cell (v : py_value) : bool :=
  match v with
  | PyStr s => check_string s
  | _ => true
  end.

(** [df.to_excel(excel_path, index=False)] at time [now].  A frame of more
    than 2^20 rows is refused before the file is opened; a refused character
    ends the write with the file left incomplete. *)
Definition to_excel (df : DataFrame) (excel_path : string) (now : Z)
    (files : gmap string disk_file) : gmap string disk_file * outcome :=
  if (2 ^ 20 <? Z.of_nat (length (rows df))) then
    (files, Raised ValueError)
  else if forallb (forallb check_cell) (rows df) then
    (<[excel_path := Workbook df now]> files, Returned)
  else
    (<[excel_path := Partial]> files, Raised IllegalCharacterError).

(** The frame [export_transactions] builds: the joined view without the
    transaction id, under the seven column names. *)
Definition export_frame (db : database) : DataFrame :=
  let transactions :=
    t ← transactions db;
    from_account ← left_join_name (t_from_account_id t) (accounts db);
    to_account ← left_join_name (t_to_account_id t) (accounts db);
    [[PyStr (t_date t); PyStr (t_type t); py_opt_str (t_description t);
      PyFloat (t_amount t); py_opt_str from_account; py_opt_str to_account;
      py_opt_str (t_file_path t)]] in
  {| columns := ["Date"; "Type"; "Description"; "Amount";
                 "From Account"; "To Account"; "File Path"];
     rows := transactions |}.

Definition excel_path : string := os_path_join UPLOAD_FOLDER "transactions.xlsx".

(** [export_transactions], run at time [now]: the files of the upload folder
    after the call, and the path it returns or the exception it raises. *)
Definition export_transactions (now : Z) (db : database)
    (files : gmap string disk_file) : gmap string disk_file * result string :=
  let df := export_frame db in
  match to_excel df excel_path now files with
  | (files, Returned) => (files, Ok excel_path)
  | (files, Raised e) => (files, Raise e)
  end.

(** [reset_application].  [confirm_button] is what
    [st.sidebar.button("Confirm Reset")] returns in this run of the script,
    [session_state] is [st.session_state].  The widgets the function redraws
    after a reset only read the database and are left out. *)
Definition reset_application (confirm_button : bool)
    (session_state : gmap string bool) (db : database)
  : gmap string bool * database * outcome :=
  if default false (session_state !! "confirm_reset") then
    match with_connection
            (delete_accounts;;
             delete_transactions;;
             delete_sequence "accounts";;
             delete_sequence "transactions") db with
    | (db', Returned) => (<["confirm_reset" := false]> session_state, db', Returned)
    | (db', Raised e) => (session_state, db', Raised e)
    end
  else (<["confirm_reset" := confirm_button]> session_state, db, Returned).

(** ** The scenario of the specification *)

Definition empty_db : database := init_database None.

Definition scenario : database :=
  let db := (add_account "Safe" (real 1000) empty_db).1 in
  let db := (add_account "Bank" (real 0) db).1 in
  let db := (add_transaction (Some "2024-01-01", Some "TRANSFER", Some "to bank",
                              Some (real 200), Some 1, Some 2, None) db).1 in
  let db := (add_transaction (Some "2024-01-02", Some "DEPOSIT", Some "cash in",
                              Some (real 50), None, Some 2, None) db).1 in
  (add_transaction (Some "2024-01-03", Some "EXPENSE", Some "fuel",
                    Some (real 30), Some 2, None, None) db).1.

(** The first two steps of the scenario: "Safe" opened with 1000 and "Bank"
    with 0. *)
Definition two_accounts : database :=
  (add_account "Bank" (real 0) (add_account "Safe" (real 1000) empty_db).1).1.

(** ** The closed set of types, references and well-formed databases *)

(** The types the "Type" select box offers. *)
Definition closed_set : list string := ["DEPOSIT"; "EXPENSE"; "TRANSFER"].

(** Does the reference name a row of [accounts]?  A null reference does not. *)
Definition account_exists (id : option Z) (db : database) : bool :=
  match id with
  | None => false
  | Some z => existsb (λ a, a_id a =? z) (accounts db)
  end.

(** Does the INSERT of [add_transaction] take the tuple?  Both ids must fit
    64 bits, and date, type and amount must not be NULL; a NaN amount is
    bound as NULL. *)
Definition insert_accepts (data : transaction_data) : bool :=
  let '(date, type, _, amount, from_account_id, to_account_id, _) := data in
  fits_int64 from_account_id && fits_int64 to_account_id &&
  bool_decide (is_Some date) && bool_decide (is_Some type) &&
  bool_decide (is_Some (amount ≫= sqlite_real)).

(** The row [add_transaction] stores for an argument the INSERT takes. *)
Definition stored_row (data : transaction_data) (db : database) : transaction :=
  let '(date, type, description, amount, from_account_id, to_account_id,
        file_path) := data in
  Transaction (next_rowid "transactions" (t_id <$> transactions db) db)
              (default EmptyString date) (default EmptyString type) description
              (default 0%float (amount ≫= sqlite_real))
              from_account_id to_account_id file_path.

(** What the PRIMARY KEY AUTOINCREMENT and UNIQUE clauses of the schema
    maintain: account ids are positive and pairwise distinct, account names
    are pairwise distinct, and so are transaction ids; [sqlite_sequence] has
    rows for the two AUTOINCREMENT tables only. *)
Record db_ok (db : database) : Prop := {
  ok_account_ids : NoDup (a_id <$> accounts db);
  ok_account_ids_pos : ∀ a, a ∈ accounts db → 0 < a_id a;
  ok_account_names : NoDup (a_name <$> accounts db);
  ok_transaction_ids : NoDup (t_id <$> transactions db);
  ok_sequence : ∀ table, is_Some (sqlite_sequence db !! table) →
                table = "accounts" ∨ table = "transactions"
}.

(** ** The balance rule, row by row *)

(** The row after [UPDATE ... balance + ? WHERE id = to_account_id]. *)
Definition credited (amount : option REAL) (to_account_id : option Z)
    (a : account) : account :=
  if decide (Some (a_id a) = to_account_id)
  then Account (a_id a) (a_name a)
               (sql_arith PrimFloat.add (a_balance a) (amount ≫= bind_double))
  else a.

(** The row after [UPDATE ... balance - ? WHERE id = from_account_id]. *)
Definition debited (amount : option REAL) (from_account_id : option Z)
    (a : account) : account :=
  if decide (Some (a_id a) = from_account_id)
  then Account (a_id a) (a_name a)
               (sql_arith PrimFloat.sub (a_balance a) (amount ≫= bind_double))
  else a.

(** ** Exact values

    The rational a stored REAL stands for; NULL and the infinities stand for
    none. *)
Definition value (x : option REAL) : option Qc :=
  match x with
  | None => None
  | Some f =>
      match Prim2SF f with
      | S754_zero _ => Some (Q2Qc 0)
      | S754_finite s m e =>
          Some (Q2Qc ((if s then -1 else 1) * (Zpos m # 1) * Qpower 2 e)%Q)
      | _ => None
      end
  end.

(** The integer [z] as a rational. *)
Definition rational (z : Z) : Qc := Q2Qc (inject_Z z).

(** The sum of all balances, as a rational; a balance without a value counts
    for nothing. *)
Definition total_balance (db : database) : Qc :=
  foldr (λ a s, default 0 (value (a_balance a)) + s)%Qc 0%Qc (accounts db).

(** [balance + amount] is not rounded: its value is the sum of the values. *)
Definition add_exact (balance amount : option REAL) : bool :=
  match value balance, value amount,
        value (sql_arith PrimFloat.add balance amount) with
  | Some p, Some q, Some r => Qc_eq_bool r (p + q)%Qc
  | _, _, _ => false
  end.

(** [balance - amount] is not rounded. *)
Definition sub_exact (balance amount : option REAL) : bool :=
  match value balance, value amount,
        value (sql_arith PrimFloat.sub balance amount) with
  | Some p, Some q, Some r => Qc_eq_bool r (p - q)%Qc
  | _, _, _ => false
  end.

(** No UPDATE of the call rounds the balance of row [a].  The UPDATEs are
    taken in the order of the type: DEPOSIT credits first, the other types
    debit first. *)
Definition row_exact (type : option string) (amount : option REAL)
    (from_account_id to_account_id : option Z) (a : account) : bool :=
  let q := amount ≫= bind_double in
  let b := a_balance a in
  match decide (Some (a_id a) = to_account_id),
        decide (Some (a_id a) = from_account_id) with
  | left _, right _ => add_exact b q
  | right _, left _ => sub_exact b q
  | left _, left _ =>
      if py_eq type "DEPOSIT"
      then add_exact b q && sub_exact (sql_arith PrimFloat.add b q) q
      else sub_exact b q && add_exact (sql_arith PrimFloat.sub b q) q
  | right _, right _ => true
  end.

(** No UPDATE of the call rounds a balance of [db]; a type outside the
    closed set runs no UPDATE. *)
Definition updates_exact (data : transaction_data) (db : database) : bool :=
  let '(_, type, _, amount, from_account_id, to_account_id, _) := data in
  match type with
  | Some s =>
      if decide (s ∈ closed_set)
      then forallb (row_exact type amount from_account_id to_account_id)
                   (accounts db)
      else true
  | None => true
  end.

(** The value of the amount the UPDATEs are given; an amount without a value
    counts for nothing. *)
Definition amount_value (amount : option REAL) : Qc :=
  default 0%Qc (value (amount ≫= bind_double)).

(** The balance-effect table over the rationals: what a transaction of value
    [q] adds to the balance of account [id]. *)
Definition signed_delta (q : Qc) (from_account_id to_account_id : option Z)
    (id : Z) : Qc :=
  ((if decide (to_account_id = Some id) then q else 0) -
   (if decide (from_account_id = Some id) then q else 0))%Qc.

(** The row after both UPDATEs of a call, in the order of the type: DEPOSIT
    credits and then debits, TRANSFER and EXPENSE debit and then credit. *)
Definition rule_row (type : option string) (amount : option REAL)
    (from_account_id to_account_id : option Z) (a : account) : account :=
  if py_eq type "DEPOSIT"
  then debited amount from_account_id (credited amount to_account_id a)
  else credited amount to_account_id (debited amount from_account_id a).

(** ** Runs of the application and the audit of the log *)

(** What the log says a transaction added to the balance of account [id]:
    the balance-effect table has rows for the types of the closed set only. *)
Definition tx_delta (t : transaction) (id : Z) : Qc :=
  if decide (t_type t ∈ closed_set)
  then signed_delta (default 0%Qc (value (Some (t_amount t))))
                    (t_from_account_id t) (t_to_account_id t) id
  else 0%Qc.

(** The balance of account [id] recomputed from the transaction log alone. *)
Definition audit_balance (log : list transaction) (id : Z) : Qc :=
  foldr (λ t s, tx_delta t id + s)%Qc 0%Qc log.

(** Several [add_transaction] calls in a row. *)
Definition add_transactions (calls : list transaction_data) (db : database)
  : database :=
  foldl (λ db data, (add_transaction data db).1) db calls.

(** A call of one of the mutating functions; [ConfirmedReset] is a run of
    [reset_application] with the confirmation flag set. *)
Inductive call :=
| AddAccount (name : string) (balance : REAL)
| AddTransaction (data : transaction_data)
| ConfirmedReset.

(** The database together with a record, kept outside the program, of the
    value of the balance each account was opened with. *)
Record ledger := Ledger {
  store : database;
  opening : gmap Z Qc
}.

Definition step (c : call) (l : ledger) : ledger :=
  match c with
  | AddAccount name balance =>
      match add_account name balance (store l) with
      | (db', Returned) =>
          {| store := db';
             opening := match last (accounts db') with
                        | Some a => <[a_id a := default 0%Qc (value (a_balance a))]>
                                      (opening l)
                        | None => opening l
                        end |}
      | (db', Raised _) => {| store := db'; opening := opening l |}
      end
  | AddTransaction data =>
      {| store := (add_transaction data (store l)).1; opening := opening l |}
  | ConfirmedReset =>
      {| store := (reset_application false {["confirm_reset" := true]} (store l)).1.2;
         opening := ∅ |}
  end.

Definition run (calls : list call) (l : ledger) : ledger :=
  foldl (λ l c, step c l) l calls.

(** A reference resolves when it is null or names a row of [accounts]. *)
Definition resolves (id : option Z) (db : database) : bool :=
  match id with
  | None => true
  | Some _ => account_exists id db
  end.

Definition call_resolves (c : call) (db : database) : bool :=
  match c with
  | AddTransaction (_, _, _, _, from_account_id, to_account_id, _) =>
      resolves from_account_id db && resolves to_account_id db
  | _ => true
  end.

(** Every transaction of the run references, at the time it is applied,
    existing accounts only. *)
Fixpoint run_resolves (calls : list call) (l : ledger) : bool :=
  match calls with
  | [] => true
  | c :: calls => call_resolves c (store l) && run_resolves calls (step c l)
  end.

(** The call rounds nothing: an account is opened with a balance that has a
    value, and no UPDATE of a transaction rounds. *)
Definition call_exact (c : call) (db : database) : bool :=
  match c with
  | AddAccount _ balance => bool_decide (is_Some (value (sqlite_real balance)))
  | AddTransaction data => updates_exact data db
  | ConfirmedReset => true
  end.

(** No call of the run rounds. *)
Fixpoint run_exact (calls : list call) (l : ledger) : bool :=
  match calls with
  | [] => true
  | c :: calls => call_exact c (store l) && run_exact calls (step c l)
  end.

(** A transfer both ends of which name rows of [accounts]. *)
Definition resolved_transfer (db : database) (data : transaction_data) : bool :=
  let '(_, type, _, _, from_account_id, to_account_id, _) := data in
  py_eq type "TRANSFER" && account_exists from_account_id db
  && account_exists to_account_id db.

(** Every call of the list is such a transfer, and none rounds. *)
Fixpoint transfers_exact (calls : list transaction_data) (db : database) : bool :=
  match calls with
  | [] => true
  | data :: calls =>
      resolved_transfer db data && updates_exact data db &&
      transfers_exact calls (add_transaction data db).1
  end.

(** The call is refused: it raises and the database stays as it was. *)
Definition rejected (data : transaction_data) (db : database) : Prop :=
  ∃ e, add_transaction data db = (db, Raised e).

(** The name of the account a reference resolves to. *)
Fixpoint account_name (id : option Z) (accs : list account) : option string :=
  match accs with
  | [] => None
  | a :: accs =>
      if decide (Some (a_id a) = id) then Some (a_name a)
      else account_name id accs
  end.

(** The exported row of one transaction. *)
Definition export_row (db : database) (t : transaction) : list py_value :=
  [PyStr (t_date t); PyStr (t_type t); py_opt_str (t_description t);
   PyFloat (t_amount t);
   py_opt_str (account_name (t_from_account_id t) (accounts db));
   py_opt_str (account_name (t_to_account_id t) (accounts db));
   py_opt_str (t_file_path t)].

(** The row of [get_transactions] for one transaction. *)
Definition view_row (db : database) (t : transaction) : list py_value :=
  PyInt (t_id t) :: export_row db t.

(** Referential integrity of the log: every reference is null or names a row
    of [accounts]. *)
Definition log_resolves (db : database) : Prop :=
  ∀ t, t ∈ transactions db →
       resolves (t_from_account_id t) db = true ∧
       resolves (t_to_account_id t) db = true.


(** The row ids of a table are 1, 2, ..., n in table order, and the counter
    of the table in [sqlite_sequence] stands at n (no row when n is 0). *)
Definition dense (table : string) (ids : list Z) (db : database) : Prop :=
  ids = seqZ 1 (Z.of_nat (length ids)) ∧
  sqlite_sequence db !! table
  = (if decide (ids = []) then None else Some (Z.of_nat (length ids))).

(** Both tables dense. *)
Definition both_dense (db : database) : Prop :=
  dense "accounts" (a_id <$> accounts db) db ∧
  dense "transactions" (t_id <$> transactions db) db.

(** ** The "Add Transaction" form *)

(** [next((acc["id"] for acc in accounts if acc["name"] == selected), None)]:
    the id of the first listed account with the selected name. *)
Fixpoint selected_id (selected : option string) (accounts : list account)
  : option Z :=
  match accounts with
  | [] => None
  | acc :: accounts =>
      if decide (Some (a_name acc) = selected) then Some (a_id acc)
      else selected_id selected accounts
  end.

(** An uploaded file: its name, and what [open(file_path, "wb")] and the
    write of its bytes do to the database file and to the upload folder they
    find.  That is for the file system to say: the path is built from a name
    the browser sends, so it may lie anywhere, the database file included,
    and the two calls may raise.  A database file that is no database
    afterwards is not modelled. *)
Record upload := Upload {
  up_name : string;
  up_write : database → gmap string disk_file →
             database * gmap string disk_file * outcome
}.

(** The handler of the "Add Transaction" button.  Its arguments are the
    values of the widgets and [accounts], the list the page fetched with
    [get_accounts] before. *)
Definition sidebar_add_transaction
    (transaction_date transaction_type transaction_desc : string)
    (transaction_amount : REAL) (from_account to_account : option string)
    (uploaded_file : option upload) (accounts : list account)
    (db : database) (files : gmap string disk_file)
  : database * gmap string disk_file * outcome :=
  let '(file_path, (db, files, written)) :=
    match uploaded_file with
    | Some u => (Some (os_path_join UPLOAD_FOLDER (up_name u)), up_write u db files)
    | None => (None, (db, files, Returned))
    end in
  match written with
  | Raised e => (db, files, Raised e)
  | Returned =>
      let from_account_id := selected_id from_account accounts in
      let to_account_id := selected_id to_account accounts in
      let r := add_transaction
                 (Some transaction_date, Some transaction_type,
                  Some transaction_desc, Some transaction_amount,
                  from_account_id, to_account_id, file_path) db in
      (r.1, files, r.2)
  end.

(** The upload of the form, if there is one, is written, and the write
    leaves the database file as it is. *)
Definition upload_written (uploaded_file : option upload) (db : database)
    (files : gmap string disk_file) : Prop :=
  match uploaded_file with
  | None => True
  | Some u => ∃ files', up_write u db files = (db, files', Returned)
  end.

(** The upload of the form, if there is one, does not reach the database
    file, whatever else it does. *)
Definition upload_outside (uploaded_file : option upload) : Prop :=
  match uploaded_file with
  | None => True
  | Some u => ∀ db files, (up_write u db files).1.1 = db
  end.

(** ** One run of the script

    Streamlit runs the script from top to bottom on every interaction.  The
    values the widgets return in a run are the input of that run. *)
Record widgets := Widgets {
  w_account_name : string;          (* text_input("Account Name") *)
  w_account_balance : REAL;         (* number_input("Initial Balance") *)
  w_add_account : bool;             (* button("Add Account") *)
  w_transaction_date : string;      (* date_input("Date") *)
  w_transaction_type : string;      (* selectbox("Type", ...) *)
  w_transaction_desc : string;      (* text_input("Description") *)
  w_transaction_amount : REAL;      (* number_input("Amount") *)
  w_from_account : option string;   (* selectbox("From Account", ...) *)
  w_to_account : option string;     (* selectbox("To Account", ...) *)
  w_uploaded_file : option upload;  (* file_uploader("Upload File") *)
  w_add_transaction : bool;         (* button("Add Transaction") *)
  w_confirm_reset : bool;           (* button("Confirm Reset") *)
  w_export : bool                   (* button("Export Transactions to Excel") *)
}.

(** The script from [init_database()] to the export button, run at time
    [now].  [file] is the database file the run finds, [None] when there is
    none yet.  What the run draws on the page reads the database only and is
    left out.  An exception ends the run where it is raised: the handlers and
    [reset_application] further down do not run. *)
Definition script_run (now : Z) (w : widgets)
    (session_state : gmap string bool)
    (file : option database) (files : gmap string disk_file)
  : gmap string bool * database * gmap string disk_file * outcome :=
  let db := init_database file in
  let accounts := get_accounts db in
  match (if w_add_account w
         then add_account (w_account_name w) (w_account_balance w) db
         else (db, Returned)) with
  | (db, Raised e) => (session_state, db, files, Raised e)
  | (db, Returned) =>
      let accounts := if w_add_account w then get_accounts db else accounts in
      match (if w_add_transaction w
             then sidebar_add_transaction
                    (w_transaction_date w) (w_transaction_type w)
                    (w_transaction_desc w) (w_transaction_amount w)
                    (w_from_account w) (w_to_account w) (w_uploaded_file w)
                    accounts db files
             else (db, files, Returned)) with
      | (db, files, Raised e) => (session_state, db, files, Raised e)
      | (db, files, Returned) =>
          match reset_application (w_confirm_reset w) session_state db with
          | (session_state, db, Raised e) => (session_state, db, files, Raised e)
          | (session_state, db, Returned) =>
              if w_export w then
                match export_transactions now db files with
                | (files, Ok _) => (session_state, db, files, Returned)
                | (files, Raise e) => (session_state, db, files, Raised e)
                end
              else (session_state, db, files, Returned)
          end
      end
  end.

(** What is kept from one run to the next: the session state, the database
    file and the files of the upload folder. *)
Record app_state := AppState {
  app_session : gmap string bool;
  app_file : option database;
  app_files : gmap string disk_file
}.

(** A run at time [now.1] with the widget values [now.2]. *)
Definition app_run (input : Z * widgets) (s : app_state) : app_state :=
  let '(session_state, db, files, _) :=
    script_run input.1 input.2 (app_session s) (app_file s) (app_files s) in
  AppState session_state (Some db) files.

(** A session: the runs from the first page load on. *)
Definition app_runs (inputs : list (Z * widgets)) (s : app_state) : app_state :=
  foldl (λ s input, app_run input s) s inputs.

Definition app_start : app_state := AppState ∅ None ∅.

(** The databases reached from the empty one by calls whose references
    resolve. *)
Definition reachable (db : database) : Prop :=
  ∃ calls, run_resolves calls (Ledger (init_database None) ∅) = true ∧
           store (run calls (Ledger (init_database None) ∅)) = db.

(** The account table seen as (id, name) pairs. *)
Definition account_keys (db : database) : list (Z * string) :=
  (λ a, (a_id a, a_name a)) <$> accounts db.

(** The exception a refused tuple raises: OverflowError when an id does not
    fit, and else IntegrityError for the first NULL among date, type and
    amount. *)
Definition refusal (data : transaction_data) : exception :=
  let '(date, type, _, amount, from_account_id, to_account_id, _) := data in
  if negb (fits_int64 from_account_id && fits_int64 to_account_id)
  then OverflowError "Python int too large to convert to SQLite INTEGER"
  else if negb (bool_decide (is_Some date))
  then IntegrityError "NOT NULL constraint failed: transactions.date"
  else if negb (bool_decide (is_Some type))
  then IntegrityError "NOT NULL constraint failed: transactions.type"
  else IntegrityError "NOT NULL constraint failed: transactions.amount".

(** * Properties *)

(** ** Row ids and the shape of an [add_transaction] call *)

Lemma fmap_ext_elem {A B} (f g : A → B) (l : list A) :
  (∀ x, x ∈ l → f x = g x) → f <$> l = g <$> l.
Proof.
  induction l as [|x l IH]; intros H; [done|].
  rewrite !fmap_cons. f_equal.
  - apply H. left.
  - apply IH. intros y Hy. apply H. by right.
Qed.

Lemma max_rowid_ge (ids : list Z) : 0 ≤ max_rowid ids.
Proof. induction ids; simpl; lia. Qed.

Lemma max_rowid_elem (ids : list Z) (z : Z) : z ∈ ids → z ≤ max_rowid ids.
Proof.
  induction 1 as [z ids|z y ids _ IH]; simpl; lia.
Qed.

Lemma next_rowid_pos table ids db : 0 < next_rowid table ids db.
Proof. unfold next_rowid. pose proof (max_rowid_ge ids). lia. Qed.

Lemma next_rowid_fresh table ids db : next_rowid table ids db ∉ ids.
Proof.
  intros H%max_rowid_elem. unfold next_rowid in H. lia.
Qed.

Lemma closed_set_cases (type : string) :
  type ∈ closed_set ↔ type = "DEPOSIT" ∨ type = "EXPENSE" ∨ type = "TRANSFER".
Proof.
  unfold closed_set. rewrite !elem_of_cons, elem_of_nil. tauto.
Qed.

Lemma bind_ok {A B} (c : cursor A) (k : A → cursor B) db a db' :
  c db = Ok (a, db') → (c ≫= k) db = k a db'.
Proof. intros H. unfold mbind, cursor_bind. by rewrite H. Qed.

Lemma bind_raise {A B} (c : cursor A) (k : A → cursor B) db e :
  c db = Raise e → (c ≫= k) db = Raise e.
Proof. intros H. unfold mbind, cursor_bind. by rewrite H. Qed.

(** The database after the INSERT of an accepted tuple. *)
Lemma insert_transaction_accepted data db :
  insert_accepts data = true →
  insert_transaction data db
  = Ok ((), {| accounts := accounts db;
               transactions := transactions db ++ [stored_row data db];
               sqlite_sequence :=
                 <["transactions" := t_id (stored_row data db)]>
                   (sqlite_sequence db) |}).
Proof.
  destruct data as [[[[[[date type] desc] amount] from_id] to_id] file].
  unfold insert_accepts, insert_transaction. intros Hacc.
  apply andb_true_iff in Hacc as [Hacc Hamount].
  apply andb_true_iff in Hacc as [Hacc Htype].
  apply andb_true_iff in Hacc as [Hfits Hdate].
  rewrite Hfits. simpl.
  destruct date as [date|]; [|done].
  destruct type as [type|]; [|done].
  by destruct (amount ≫= sqlite_real) as [stored|].
Qed.

Lemma insert_transaction_refused data db :
  insert_accepts data = false →
  insert_transaction data db = Raise (refusal data).
Proof.
  destruct data as [[[[[[date type] desc] amount] from_id] to_id] file].
  unfold insert_accepts, insert_transaction, refusal. intros Hacc.
  destruct (fits_int64 from_id && fits_int64 to_id); [|done]. simpl in *.
  destruct date as [date|]; [|done].
  destruct type as [type|]; [|done].
  by destruct (amount ≫= sqlite_real) as [stored|].
Qed.

Lemma add_transaction_refused data db :
  insert_accepts data = false →
  add_transaction data db = (db, Raised (refusal data)).
Proof.
  intros Hacc. unfold add_transaction, with_connection.
  by rewrite (bind_raise _ _ _ _ (insert_transaction_refused _ _ Hacc)).
Qed.

(** After the INSERT nothing raises. *)
Lemma balance_updates_return (type : option string) amount from_id to_id db1 :
  ∃ db2,
    (if py_eq type "DEPOSIT" then
       when (truthy to_id) (update_balance_plus amount to_id);;
       when (truthy from_id) (update_balance_minus amount from_id)
     else if py_eq type "TRANSFER" then
       when (truthy from_id) (update_balance_minus amount from_id);;
       when (truthy to_id) (update_balance_plus amount to_id)
     else if py_eq type "EXPENSE" then
       when (truthy from_id) (update_balance_minus amount from_id);;
       when (truthy to_id) (update_balance_plus amount to_id)
     else mret ()) db1 = Ok ((), db2) ∧
    transactions db2 = transactions db1 ∧
    sqlite_sequence db2 = sqlite_sequence db1 ∧
    (λ a, (a_id a, a_name a)) <$> accounts db2
    = (λ a, (a_id a, a_name a)) <$> accounts db1.
Proof.
  unfold when, update_balance_plus, update_balance_minus, update_balance,
    mbind, cursor_bind, mret, cursor_ret.
  destruct (py_eq type "DEPOSIT"), (py_eq type "TRANSFER"),
    (py_eq type "EXPENSE"), (truthy to_id), (truthy from_id);
    simpl; eexists; (split; [reflexivity|]); simpl; split_and!; try done;
    rewrite <- ?list_fmap_compose;
    apply fmap_ext_elem; intros a _; simpl; by repeat (case_decide; simpl).
Qed.

(** Unfold a call of [add_transaction] on an accepted tuple up to the
    balance updates. *)
Ltac after_insert Hacc :=
  unfold add_transaction, with_connection;
  rewrite (bind_ok _ _ _ _ _ (insert_transaction_accepted _ _ Hacc));
  cbv beta iota.

Lemma add_transaction_accepted data db :
  insert_accepts data = true →
  (add_transaction data db).2 = Returned ∧
  transactions (add_transaction data db).1
  = transactions db ++ [stored_row data db] ∧
  sqlite_sequence (add_transaction data db).1
  = <["transactions" := t_id (stored_row data db)]> (sqlite_sequence db).
Proof.
  intros Hacc.
  destruct data as [[[[[[date type] desc] amount] from_id] to_id] file].
  after_insert Hacc.
  match goal with
  | |- context [Database ?a ?t ?s] =>
      destruct (balance_updates_return type amount from_id to_id (Database a t s))
        as (db2 & Hupd & Ht & Hs & _)
  end.
  rewrite Hupd. simpl. by rewrite Ht, Hs.
Qed.

Lemma add_transaction_returns data db :
  insert_accepts data = true → (add_transaction data db).2 = Returned.
Proof. intros Hacc. by destruct (add_transaction_accepted data db Hacc). Qed.

Lemma add_transaction_log data db :
  insert_accepts data = true →
  transactions (add_transaction data db).1
  = transactions db ++ [stored_row data db].
Proof. intros Hacc. by destruct (add_transaction_accepted data db Hacc) as (_ & ? & _). Qed.

Lemma add_transaction_sequence data db :
  insert_accepts data = true →
  sqlite_sequence (add_transaction data db).1
  = <["transactions" := t_id (stored_row data db)]> (sqlite_sequence db).
Proof. intros Hacc. by destruct (add_transaction_accepted data db Hacc) as (_ & _ & ?). Qed.

(** [add_transaction] rewrites balances only: ids and names stay in place. *)
Lemma add_transaction_keys data db :
  (λ a, (a_id a, a_name a)) <$> accounts (add_transaction data db).1
  = (λ a, (a_id a, a_name a)) <$> accounts db.
Proof.
  destruct (insert_accepts data) eqn:Hacc;
    [|by rewrite add_transaction_refused].
  destruct data as [[[[[[date type] desc] amount] from_id] to_id] file].
  after_insert Hacc.
  match goal with
  | |- context [Database ?a ?t ?s] =>
      destruct (balance_updates_return type amount from_id to_id (Database a t s))
        as (db2 & Hupd & _ & _ & Hk)
  end.
  rewrite Hupd. simpl. by rewrite Hk.
Qed.

Lemma add_transaction_ids data db :
  a_id <$> accounts (add_transaction data db).1 = a_id <$> accounts db.
Proof.
  pose proof (f_equal (fmap fst) (add_transaction_keys data db)) as H.
  by rewrite <- !list_fmap_compose in H.
Qed.

Lemma add_transaction_names data db :
  a_name <$> accounts (add_transaction data db).1 = a_name <$> accounts db.
Proof.
  pose proof (f_equal (fmap snd) (add_transaction_keys data db)) as H.
  by rewrite <- !list_fmap_compose in H.
Qed.

(** A type outside the closed set, [None] included, runs no UPDATE. *)
Lemma add_transaction_accounts_other date type desc amount from_id to_id file db :
  (∀ s, type = Some s → s ∉ closed_set) →
  accounts (add_transaction (date, type, desc, amount, from_id, to_id, file) db).1
  = accounts db.
Proof.
  intros Hty.
  destruct (insert_accepts (date, type, desc, amount, from_id, to_id, file))
    eqn:Hacc; [|by rewrite add_transaction_refused].
  after_insert Hacc.
  assert (Hne : ∀ s, s ∈ closed_set → py_eq type s = false).
  { intros s Hs. destruct type as [t|]; [|done]. simpl.
    apply String.eqb_neq. intros ->. by apply (Hty s). }
  rewrite !Hne by (apply closed_set_cases; auto). done.
Qed.

Lemma truthy_false_no_account (id : option Z) (a : account) :
  truthy id = false → a_id a ≠ 0 → id ≠ Some (a_id a).
Proof.
  destruct id as [z|]; simpl; [|done].
  intros Hz Ha [= ->]. apply Ha. lia.
Qed.

(** A guarded UPDATE on a table without a row of id 0 is the UPDATE itself:
    a false guard means a reference that selects no row. *)
Lemma when_truthy_update f id db :
  (∀ a, a ∈ accounts db → a_id a ≠ 0) →
  when (truthy id) (update_balance f id) db = update_balance f id db.
Proof.
  intros Hnz. unfold when. destruct (truthy id) eqn:Hid; [done|].
  unfold update_balance, mret, cursor_ret. destruct db as [accs txs sq]; simpl in *.
  do 3 f_equal. rewrite <- (list_fmap_id accs) at 1.
  apply fmap_ext_elem. intros a Ha. case_decide as Heq; [|done].
  by destruct (truthy_false_no_account id a Hid (Hnz a Ha)).
Qed.

(** The balance rule, for every type of the closed set. *)
Lemma add_transaction_accounts_closed date type desc amount from_id to_id file db :
  type ∈ closed_set →
  (∀ a, a ∈ accounts db → a_id a ≠ 0) →
  insert_accepts (date, Some type, desc, amount, from_id, to_id, file) = true →
  accounts (add_transaction (date, Some type, desc, amount, from_id, to_id, file) db).1
  = rule_row (Some type) amount from_id to_id <$> accounts db.
Proof.
  intros Hty%closed_set_cases Hnz Hacc.
  after_insert Hacc.
  set (db1 := Database (accounts db) _ _).
  assert (Hnz1 : ∀ a, a ∈ accounts db1 → a_id a ≠ 0) by exact Hnz.
  unfold rule_row.
  destruct Hty as [->|[->| ->]]; simpl;
    unfold update_balance_plus, update_balance_minus, mbind, cursor_bind;
    rewrite (when_truthy_update _ _ db1 Hnz1); simpl;
    rewrite when_truthy_update
      by (simpl; intros a (b & -> & Hb)%list_elem_of_fmap;
          case_decide; simpl; by apply Hnz);
    simpl;
    by rewrite <- !list_fmap_compose.
Qed.

(** ** Preservation of well-formedness *)

Lemma db_ok_empty : db_ok (init_database None).
Proof.
  split; simpl; try apply NoDup_nil_2.
  - intros a Ha. by apply elem_of_nil in Ha.
  - intros table [z Hz]. by rewrite lookup_empty in Hz.
Qed.

Lemma ok_sequence_insert (sq : gmap string Z) (name : string) (z : Z) :
  name = "accounts" ∨ name = "transactions" →
  (∀ table, is_Some (sq !! table) → table = "accounts" ∨ table = "transactions") →
  ∀ table, is_Some (<[name := z]> sq !! table) →
           table = "accounts" ∨ table = "transactions".
Proof.
  intros Hname Hsq table Hsome.
  destruct (decide (name = table)) as [<-|Hne]; [done|].
  rewrite lookup_insert_ne in Hsome by done. by apply Hsq.
Qed.

Lemma existsb_name_false name (accs : list account) :
  existsb (λ a, String.eqb (a_name a) name) accs = false ↔
  name ∉ a_name <$> accs.
Proof.
  induction accs as [|a accs IH]; simpl.
  - split; [intros _ H; by apply elem_of_nil in H|done].
  - rewrite orb_false_iff, IH, not_elem_of_cons.
    destruct (String.eqb_spec (a_name a) name); intuition congruence.
Qed.

Lemma existsb_name_true name (accs : list account) :
  existsb (λ a, String.eqb (a_name a) name) accs = true ↔
  name ∈ a_name <$> accs.
Proof.
  destruct (existsb _ accs) eqn:Hex.
  - split; [intros _|done].
    destruct (decide (name ∈ a_name <$> accs)) as [|Hno]; [done|].
    apply existsb_name_false in Hno. congruence.
  - apply existsb_name_false in Hex. split; [done|]. intros H. by apply Hex in H.
Qed.

Lemma insert_rejects_known_name name balance db :
  name ∈ a_name <$> accounts db →
  add_account name balance db
  = (db, Raised (IntegrityError "UNIQUE constraint failed: accounts.name")).
Proof.
  intros Hdup%existsb_name_true.
  unfold add_account, with_connection, insert_account. by rewrite Hdup.
Qed.

Lemma insert_accepts_new_name name balance db :
  name ∉ a_name <$> accounts db →
  add_account name balance db
  = ({| accounts := accounts db ++
          [Account (next_rowid "accounts" (a_id <$> accounts db) db) name
                   (sqlite_real balance)];
        transactions := transactions db;
        sqlite_sequence :=
          <["accounts" := next_rowid "accounts" (a_id <$> accounts db) db]>
            (sqlite_sequence db) |}, Returned).
Proof.
  intros Hnew%existsb_name_false.
  unfold add_account, with_connection, insert_account. by rewrite Hnew.
Qed.

Lemma add_account_ok name balance db :
  db_ok db → db_ok (add_account name balance db).1.
Proof.
  intros [Hids Hpos Hnames Htx Hsq].
  unfold add_account, with_connection, insert_account.
  destruct (existsb _ _) eqn:Hex; simpl; [done|].
  apply existsb_name_false in Hex.
  split; simpl; rewrite ?fmap_app; simpl; try done;
    try (apply ok_sequence_insert; by auto).
  - apply NoDup_app. split_and!; [done| |apply NoDup_singleton].
    intros z Hz ->%list_elem_of_singleton.
    by apply next_rowid_fresh in Hz.
  - intros a [Ha| ->%list_elem_of_singleton]%elem_of_app; [by apply Hpos|].
    apply next_rowid_pos.
  - apply NoDup_app. split_and!; [done| |apply NoDup_singleton].
    by intros z Hz ->%list_elem_of_singleton.
Qed.

Lemma add_transaction_ok data db :
  db_ok db → db_ok (add_transaction data db).1.
Proof.
  intros Hok.
  destruct (insert_accepts data) eqn:Hacc;
    [|by rewrite add_transaction_refused].
  destruct Hok as [Hids Hpos Hnames Htx Hsq]. split.
  - by rewrite add_transaction_ids.
  - intros a Ha.
    assert (a_id a ∈ a_id <$> accounts (add_transaction data db).1) as Hin
      by (apply list_elem_of_fmap; eauto).
    rewrite add_transaction_ids in Hin.
    apply list_elem_of_fmap in Hin as (b & -> & Hb). by apply Hpos.
  - by rewrite add_transaction_names.
  - rewrite add_transaction_log, fmap_app by done. simpl.
    apply NoDup_app. split_and!; [done| |apply NoDup_singleton].
    intros z Hz ->%list_elem_of_singleton.
    destruct data as [[[[[[date type] desc] amount] from_id] to_id] file].
    by apply next_rowid_fresh in Hz.
  - rewrite add_transaction_sequence by done. apply ok_sequence_insert; auto.
Qed.

Lemma db_ok_nonzero db : db_ok db → ∀ a, a ∈ accounts db → a_id a ≠ 0.
Proof. intros Hok a Ha. pose proof (ok_account_ids_pos db Hok a Ha). lia. Qed.

Lemma two_accounts_ok : db_ok two_accounts.
Proof. unfold two_accounts. do 2 apply add_account_ok. apply db_ok_empty. Qed.

(** ** The confirmed reset *)

Lemma reset_application_tables confirm_button session_state db :
  session_state !! "confirm_reset" = Some true →
  let db' := (reset_application confirm_button session_state db).1.2 in
  reset_application confirm_button session_state db
  = (<["confirm_reset" := false]> session_state, db', Returned) ∧
  accounts db' = [] ∧ transactions db' = [] ∧
  sqlite_sequence db' = delete "transactions" (delete "accounts" (sqlite_sequence db)).
Proof.
  intros Hflag. unfold reset_application. by rewrite Hflag.
Qed.

(** On a well-formed database the confirmed reset gives back the database
    [init_database] creates. *)
Lemma reset_application_confirmed confirm_button session_state db :
  db_ok db →
  session_state !! "confirm_reset" = Some true →
  reset_application confirm_button session_state db
  = (<["confirm_reset" := false]> session_state, init_database None, Returned).
Proof.
  intros Hok Hflag.
  destruct (reset_application_tables confirm_button _ db Hflag)
    as (-> & Ha & Ht & Hs).
  do 2 f_equal.
  destruct ((reset_application confirm_button session_state db).1.2)
    as [accs txs sq]; simpl in *; subst accs txs.
  unfold init_database. f_equal. rewrite Hs.
  apply map_eq. intros table. rewrite lookup_empty.
  destruct (decide ("transactions" = table)) as [<-|Hne1];
    [by rewrite lookup_delete_eq|].
  rewrite lookup_delete_ne by done.
  destruct (decide ("accounts" = table)) as [<-|Hne2];
    [by rewrite lookup_delete_eq|].
  rewrite lookup_delete_ne by done.
  apply eq_None_not_Some. intros Hsome.
  destruct (ok_sequence db Hok table Hsome); congruence.
Qed.

Lemma reset_application_idle confirm_button session_state db :
  session_state !! "confirm_reset" ≠ Some true →
  reset_application confirm_button session_state db
  = (<["confirm_reset" := confirm_button]> session_state, db, Returned).
Proof.
  intros Hflag. unfold reset_application.
  by destruct (session_state !! "confirm_reset") as [[]|].
Qed.

Lemma reset_application_returns confirm_button session_state db :
  (reset_application confirm_button session_state db).2 = Returned.
Proof.
  unfold reset_application. by destruct (default false _).
Qed.

(** ** Exact values *)



Lemma option_qc_eq (o : option Qc) (q : Qc) :
  match o with Some p => Qc_eq_bool p q | None => false end = true →
  o = Some q.
Proof. destruct o as [p|]; [|done]. by intros ->%Qc_eq_bool_correct. Qed.

(** Closed equations between rationals are decided on their fractions. *)
Ltac evaluate :=
  first [ apply Qc_is_canon; vm_compute; reflexivity
        | apply option_qc_eq; vm_compute; reflexivity
        | reflexivity ].

Lemma add_exact_spec (b q : option REAL) :
  add_exact b q = true →
  ∃ p v, value b = Some p ∧ value q = Some v ∧
         value (sql_arith PrimFloat.add b q) = Some (p + v)%Qc.
Proof.
  unfold add_exact.
  destruct (value b) as [p|], (value q) as [v|],
           (value (sql_arith PrimFloat.add b q)) as [r|]; try done.
  intros ->%Qc_eq_bool_correct. eauto.
Qed.

Lemma sub_exact_spec (b q : option REAL) :
  sub_exact b q = true →
  ∃ p v, value b = Some p ∧ value q = Some v ∧
         value (sql_arith PrimFloat.sub b q) = Some (p - v)%Qc.
Proof.
  unfold sub_exact.
  destruct (value b) as [p|], (value q) as [v|],
           (value (sql_arith PrimFloat.sub b q)) as [r|]; try done.
  intros ->%Qc_eq_bool_correct. eauto.
Qed.

Ltac exact_steps :=
  repeat match goal with
         | H : _ && _ = true |- _ => apply andb_true_iff in H as [? ?]
         | H : add_exact _ _ = true |- _ =>
             apply add_exact_spec in H as (? & ? & ? & ? & ?)
         | H : sub_exact _ _ = true |- _ =>
             apply sub_exact_spec in H as (? & ? & ? & ? & ?)
         end.

(** The rule on one row, over the rationals: when no UPDATE rounds, the
    value of the balance moves by the signed delta of the call. *)
Lemma rule_row_value type amount from_id to_id (a : account) (p : Qc) :
  row_exact type amount from_id to_id a = true →
  value (a_balance a) = Some p →
  value (a_balance (rule_row type amount from_id to_id a))
  = Some (p + signed_delta (amount_value amount) from_id to_id (a_id a))%Qc.
Proof.
  unfold row_exact, rule_row, credited, debited, signed_delta, amount_value.
  intros Hex Hp.
  destruct (decide (Some (a_id a) = to_id)) as [Hto|Hto],
           (decide (Some (a_id a) = from_id)) as [Hfrom|Hfrom];
    destruct (decide (to_id = Some (a_id a))); try congruence;
    destruct (decide (from_id = Some (a_id a))); try congruence;
    destruct (py_eq type "DEPOSIT"); simpl;
    repeat (rewrite decide_True by done);
    repeat (rewrite decide_False by done); simpl;
    exact_steps;
    repeat match goal with
           | H1 : ?x = Some _, H2 : ?x = Some _ |- _ =>
               rewrite H1 in H2; injection H2 as ->
           end;
    repeat match goal with
           | H : value ?x = Some _ |- context [value ?x] => rewrite H
           end; simpl; f_equal; ring.
Qed.

(** The same for the total, where a balance without a value counts for
    nothing: a row without a value is one no UPDATE of an exact call
    touches. *)
Lemma rule_row_default type amount from_id to_id (a : account) :
  row_exact type amount from_id to_id a = true →
  (default 0 (value (a_balance (rule_row type amount from_id to_id a))))%Qc
  = (default 0 (value (a_balance a))
     + signed_delta (amount_value amount) from_id to_id (a_id a))%Qc.
Proof.
  intros Hex. destruct (value (a_balance a)) as [p|] eqn:Hp.
  - by rewrite (rule_row_value _ _ _ _ _ p).
  - revert Hex.
    unfold row_exact, rule_row, credited, debited, signed_delta.
    destruct (decide (Some (a_id a) = to_id)) as [Hto|Hto],
             (decide (Some (a_id a) = from_id)) as [Hfrom|Hfrom];
      destruct (decide (to_id = Some (a_id a))); try congruence;
      destruct (decide (from_id = Some (a_id a))); try congruence;
      destruct (py_eq type "DEPOSIT"); cbn [a_id a_balance a_name]; intros Hex;
      try (exact_steps; congruence);
      repeat (rewrite decide_False by done); rewrite Hp; simpl; ring.
Qed.

(** ** The sum of all balances *)

(** With pairwise distinct ids a reference selects at most one row, so the
    amounts credited through it add up to [amount] or to nothing. *)
Lemma indicator_sum (x : option Z) (amount : Qc) (db : database) :
  NoDup (a_id <$> accounts db) →
  foldr (λ a s, (if decide (x = Some (a_id a)) then amount else 0) + s)%Qc
        0%Qc (accounts db)
  = if account_exists x db then amount else 0%Qc.
Proof.
  destruct db as [accs txs sq]. unfold account_exists. simpl. clear txs sq.
  destruct x as [z|].
  - induction accs as [|a accs IH]; intros Hnd; simpl; [done|].
    rewrite fmap_cons in Hnd. apply NoDup_cons in Hnd as [Hfresh Hnd].
    rewrite (IH Hnd). clear IH.
    case_decide as Hz.
    + injection Hz as ->. rewrite Z.eqb_refl. simpl.
      destruct (existsb _ accs) eqn:Hex; [|ring].
      exfalso. apply Hfresh.
      apply existsb_exists in Hex as (b & Hb & Heq%Z.eqb_eq).
      apply list_elem_of_fmap. exists b. split; [done|].
      by apply list_elem_of_In.
    + destruct (Z.eqb_spec (a_id a) z) as [Heq|_]; [congruence|]. simpl.
      destruct (existsb _ accs); ring.
  - intros _. induction accs as [|a accs IH]; simpl in *; [done|].
    rewrite IH. ring.
Qed.

Lemma total_balance_rule type amount from_id to_id (accs : list account) :
  forallb (row_exact type amount from_id to_id) accs = true →
  foldr (λ a s, default 0 (value (a_balance a)) + s)%Qc 0%Qc
        (rule_row type amount from_id to_id <$> accs)
  = (foldr (λ a s, default 0 (value (a_balance a)) + s) 0 accs
     + foldr (λ a s, signed_delta (amount_value amount) from_id to_id (a_id a) + s)
             0 accs)%Qc.
Proof.
  induction accs as [|a accs IH]; [intros _; simpl; ring|].
  intros [Ha Haccs]%andb_true_iff.
  rewrite fmap_cons. cbn [foldr]. rewrite (IH Haccs), rule_row_default by done.
  ring.
Qed.

Lemma foldr_minus (f g : account → Qc) (accs : list account) :
  foldr (λ a s, (f a - g a) + s)%Qc 0%Qc accs
  = (foldr (λ a s, f a + s) 0 accs - foldr (λ a s, g a + s) 0 accs)%Qc.
Proof.
  induction accs as [|a accs IH]; simpl; [ring|].
  rewrite IH. ring.
Qed.

(** One call of [add_transaction] with a type of the closed set that rounds
    nothing moves the total by what it credits minus what it debits. *)
Lemma total_after_add_transaction date type desc amount from_id to_id file db :
  db_ok db →
  type ∈ closed_set →
  insert_accepts (date, Some type, desc, amount, from_id, to_id, file) = true →
  updates_exact (date, Some type, desc, amount, from_id, to_id, file) db = true →
  total_balance
    (add_transaction (date, Some type, desc, amount, from_id, to_id, file) db).1
  = (total_balance db
     + (if account_exists to_id db then amount_value amount else 0)
     - (if account_exists from_id db then amount_value amount else 0))%Qc.
Proof.
  intros Hok Hty Hacc Hex. unfold total_balance.
  rewrite add_transaction_accounts_closed by (done || by apply db_ok_nonzero).
  unfold updates_exact in Hex. rewrite decide_True in Hex by done.
  rewrite total_balance_rule by done. unfold signed_delta.
  rewrite (foldr_minus
             (λ a, if decide (to_id = Some (a_id a)) then amount_value amount else 0%Qc)
             (λ a, if decide (from_id = Some (a_id a)) then amount_value amount else 0%Qc)).
  rewrite !indicator_sum by apply Hok. ring.
Qed.

Lemma account_exists_ids (x : option Z) (db db' : database) :
  a_id <$> accounts db' = a_id <$> accounts db →
  account_exists x db' = account_exists x db.
Proof.
  intros Hids. destruct x as [z|]; simpl; [|done].
  assert (Hex : ∀ accs : list account,
             existsb (λ a, a_id a =? z) accs = bool_decide (z ∈ a_id <$> accs)).
  { induction accs as [|a accs IH]; simpl; [done|].
    rewrite IH. destruct (Z.eqb_spec (a_id a) z) as [->|Hne]; simpl.
    - symmetry. apply bool_decide_eq_true. left.
    - apply bool_decide_ext. rewrite elem_of_cons. intuition congruence. }
  by rewrite !Hex, Hids.
Qed.

(** ** The joined view *)

Lemma filter_fresh_id (z : Z) (accs : list account) :
  z ∉ a_id <$> accs →
  filter (λ b, Some (a_id b) = Some z) accs = [].
Proof.
  induction accs as [|a accs IH]; [done|].
  rewrite fmap_cons, not_elem_of_cons. intros [Hne Hfresh].
  rewrite filter_cons_False by congruence. by apply IH.
Qed.

(** Under the primary key a LEFT JOIN on an account reference yields one row. *)
Lemma left_join_unique (id : option Z) (accs : list account) :
  NoDup (a_id <$> accs) →
  left_join_name id accs = [account_name id accs].
Proof.
  unfold left_join_name.
  induction accs as [|a accs IH]; [done|].
  rewrite fmap_cons. intros [Hfresh Hnd]%NoDup_cons. simpl account_name.
  case_decide as Hid.
  - rewrite filter_cons_True by done. subst id.
    by rewrite filter_fresh_id.
  - rewrite filter_cons_False by done. by apply IH.
Qed.

Lemma export_frame_rows db :
  db_ok db →
  export_frame db
  = {| columns := ["Date"; "Type"; "Description"; "Amount";
                   "From Account"; "To Account"; "File Path"];
       rows := export_row db <$> transactions db |}.
Proof.
  intros Hok. unfold export_frame. f_equal.
  induction (transactions db) as [|t txs IH]; [done|].
  rewrite fmap_cons, <- IH. clear IH.
  change (?l ≫= ?f) with (mbind f l). cbn [mbind list_bind].
  rewrite !left_join_unique by apply Hok. done.
Qed.

Lemma get_transactions_rows (db : database) :
  db_ok db → get_transactions db = view_row db <$> transactions db.
Proof.
  intros Hok. unfold get_transactions.
  induction (transactions db) as [|t txs IH]; [done|].
  rewrite fmap_cons, <- IH. clear IH.
  change (?l ≫= ?f) with (mbind f l). cbn [mbind list_bind].
  rewrite !left_join_unique by apply Hok. done.
Qed.

(** Without a condition on the database: the exported rows are the rows of
    the view without their first column. *)
Lemma export_frame_tail (db : database) :
  rows (export_frame db) = tail <$> get_transactions db.
Proof.
  unfold export_frame, get_transactions. simpl.
  induction (transactions db) as [|t txs IH]; [done|].
  change (?l ≫= ?f) with (mbind f l) in *. cbn [mbind list_bind].
  rewrite fmap_app, <- IH. f_equal. clear IH.
  induction (left_join_name (t_from_account_id t) (accounts db)) as [|x xs IHx];
    [done|].
  cbn [mbind list_bind]. rewrite fmap_app, <- IHx. f_equal. clear IHx.
  induction (left_join_name (t_to_account_id t) (accounts db)) as [|y ys IHy];
    [done|].
  cbn [mbind list_bind]. rewrite fmap_app, <- IHy. done.
Qed.

(** When the writer accepts the frame the export returns the path and the
    file is the workbook of the frame. *)
Lemma export_transactions_written now db files :
  Z.of_nat (length (rows (export_frame db))) ≤ 2 ^ 20 →
  forallb (forallb check_cell) (rows (export_frame db)) = true →
  export_transactions now db files
  = (<[excel_path := Workbook (export_frame db) now]> files, Ok excel_path).
Proof.
  intros Hlen Hcells. unfold export_transactions, to_excel.
  destruct (Z.ltb_spec (2 ^ 20) (Z.of_nat (length (rows (export_frame db)))));
    [lia|].
  by rewrite Hcells.
Qed.

(** The export returns only when it has written the workbook of the frame. *)
Lemma export_transactions_returned now db files files' path :
  export_transactions now db files = (files', Ok path) →
  path = excel_path ∧
  files' = <[excel_path := Workbook (export_frame db) now]> files ∧
  forallb (forallb check_cell) (rows (export_frame db)) = true.
Proof.
  unfold export_transactions, to_excel.
  destruct (2 ^ 20 <? _); [done|].
  destruct (forallb _ _); [|done].
  by intros [= <- <-].
Qed.

(** ** The audit of the log *)


Lemma account_exists_elem (z : Z) (db : database) :
  account_exists (Some z) db = true ↔ z ∈ a_id <$> accounts db.
Proof.
  simpl. rewrite existsb_exists, list_elem_of_fmap.
  split.
  - intros (a & Ha%list_elem_of_In & Heq%Z.eqb_eq). eauto.
  - intros (a & -> & Ha%list_elem_of_In). exists a. by rewrite Z.eqb_refl.
Qed.


Lemma resolves_ids (x : option Z) (db db' : database) :
  a_id <$> accounts db' = a_id <$> accounts db →
  resolves x db' = resolves x db.
Proof.
  intros Hids. destruct x as [z|]; [|done].
  by apply (account_exists_ids (Some z)).
Qed.

Lemma resolves_grow (x : option Z) (db db' : database) (a : account) :
  accounts db' = accounts db ++ [a] →
  resolves x db = true → resolves x db' = true.
Proof.
  destruct x as [z|]; [|done]. simpl. intros ->.
  rewrite existsb_app. by intros ->.
Qed.


Lemma insert_accepts_type date type desc amount from_id to_id file :
  insert_accepts (date, type, desc, amount, from_id, to_id, file) = true →
  is_Some type.
Proof.
  unfold insert_accepts. intros Hacc.
  apply andb_true_iff in Hacc as [Hacc _].
  apply andb_true_iff in Hacc as [_ Hty].
  by apply bool_decide_eq_true in Hty.
Qed.






(** * The claims *)

(** ** The ledger engine *)




(** C9, as the specification states it, fails: a call with a type outside
    the closed set is refused like any other when the INSERT does not take
    its tuple.  Here the reference 2^63 does not fit an SQLite INTEGER: the
    call raises and no row is inserted. *)
Lemma add_transaction_other_type_refused :
  let data := (Some "2024-01-05", Some "REFUND", Some "shop", Some (real 10),
               Some (2 ^ 63), None, None) in
  ("REFUND" ∉ closed_set) ∧
  add_transaction data two_accounts
  = (two_accounts,
     Raised (OverflowError "Python int too large to convert to SQLite INTEGER")) ∧
  transactions (add_transaction data two_accounts).1 = [].
Proof.
  split_and!; [|reflexivity..].
  rewrite closed_set_cases. intros [|[|]]; discriminate.
Qed.

(** C9, amended.  For every call of [add_transaction] that the INSERT takes
    and whose type is none of DEPOSIT, TRANSFER and EXPENSE the call returns
    without raising, the row is appended to the transaction table, and the
    accounts table, hence every balance, is unchanged. *)
Theorem add_transaction_other_type date type desc amount from_id to_id file db :
  type ≠ "DEPOSIT" → type ≠ "TRANSFER" → type ≠ "EXPENSE" →
  let data := (date, Some type, desc, amount, from_id, to_id, file) in
  insert_accepts data = true →
  (add_transaction data db).2 = Returned ∧
  transactions (add_transaction data db).1
  = transactions db ++ [stored_row data db] ∧
  accounts (add_transaction data db).1 = accounts db.
Proof.
  intros Hd Ht He data Hacc. unfold data. split_and!.
  - by apply add_transaction_returns.
  - by apply add_transaction_log.
  - apply add_transaction_accounts_other. intros s [= <-].
    rewrite closed_set_cases. tauto.
Qed.

Lemma add_transaction_other_type_witness :
  let data := (Some "2024-01-05", Some "REFUND", Some "shop", Some (real 10),
               Some 1, Some 2, None) in
  (add_transaction data two_accounts).2 = Returned ∧
  transactions (add_transaction data two_accounts).1
  = transactions two_accounts ++ [stored_row data two_accounts] ∧
  accounts (add_transaction data two_accounts).1 = accounts two_accounts.
Proof.
  apply (add_transaction_other_type
           (Some "2024-01-05") "REFUND" (Some "shop") (Some (real 10))
           (Some 1) (Some 2) None two_accounts);
    [discriminate..|reflexivity].
Defined.

(** C3, as the specification states it, fails: a call with a type outside
    the closed set and a call with a negative amount are both accepted, and
    both change the store. *)
Lemma add_transaction_not_validated :
  let unknown := (Some "2024-01-05", Some "REFUND", Some "shop", Some (real 10),
                  Some 1, Some 2, None) in
  let negative := (Some "2024-01-05", Some "DEPOSIT", Some "shop",
                   Some (real (-10)), None, Some 2, None) in
  ("REFUND" ∉ closed_set) ∧ PrimFloat.ltb (real (-10)) 0 = true ∧
  ¬ rejected unknown two_accounts ∧
  ¬ rejected negative two_accounts ∧
  (add_transaction unknown two_accounts).2 = Returned ∧
  (add_transaction negative two_accounts).2 = Returned ∧
  length (transactions (add_transaction unknown two_accounts).1) = 1%nat ∧
  accounts (add_transaction negative two_accounts).1
  = [Account 1 "Safe" (Some (real 1000)); Account 2 "Bank" (Some (real (-10)))].
Proof.
  split_and!; try reflexivity.
  - rewrite closed_set_cases. intros [|[|]]; discriminate.
  - intros [e He]. apply (f_equal snd) in He.
    rewrite add_transaction_returns in He by reflexivity. discriminate.
  - intros [e He]. apply (f_equal snd) in He.
    rewrite add_transaction_returns in He by reflexivity. discriminate.
Qed.

(** C3, amended.  [add_transaction] validates neither the type nor the
    amount.  A call whose type is outside the closed set or whose amount is
    negative is treated like any other: when the INSERT takes the tuple the
    call returns without raising and appends its row, with no effect on the
    balances for a type outside the closed set and with the rule of the
    type, applied to the amount as given, for a type of the closed set; when
    the INSERT refuses the tuple the call raises the exception of the INSERT
    and the store is unchanged. *)
Theorem add_transaction_unvalidated date type desc amount from_id to_id file db :
  (∀ s, type = Some s → s ∉ closed_set) ∨
  (∃ x, amount = Some x ∧ PrimFloat.ltb x 0 = true) →
  let data := (date, type, desc, amount, from_id, to_id, file) in
  let db' := (add_transaction data db).1 in
  (insert_accepts data = true →
   (add_transaction data db).2 = Returned ∧
   transactions db' = transactions db ++ [stored_row data db] ∧
   ((∀ s, type = Some s → s ∉ closed_set) → accounts db' = accounts db) ∧
   (∀ s, type = Some s → s ∈ closed_set → db_ok db →
         accounts db' = rule_row type amount from_id to_id <$> accounts db)) ∧
  (insert_accepts data = false →
   add_transaction data db = (db, Raised (refusal data))).
Proof.
  intros _ data db'. unfold db', data. split.
  - intros Hacc. split_and!.
    + by apply add_transaction_returns.
    + by apply add_transaction_log.
    + apply add_transaction_accounts_other.
    + intros s -> Hty Hok. apply add_transaction_accounts_closed; [done| |done].
      by apply db_ok_nonzero.
  - apply add_transaction_refused.
Qed.

Lemma add_transaction_unvalidated_witness :
  let data := (Some "2024-01-05", Some "DEPOSIT", Some "shop", Some (real (-10)),
               None, Some 2, None) in
  PrimFloat.ltb (real (-10)) 0 = true ∧
  insert_accepts data = true ∧
  (add_transaction data two_accounts).2 = Returned ∧
  transactions (add_transaction data two_accounts).1
  = transactions two_accounts ++ [stored_row data two_accounts] ∧
  accounts (add_transaction data two_accounts).1
  = [Account 1 "Safe" (Some (real 1000)); Account 2 "Bank" (Some (real (-10)))].
Proof.
  assert (Hty : "DEPOSIT" ∈ closed_set) by (apply closed_set_cases; auto).
  destruct (add_transaction_unvalidated
              (Some "2024-01-05") (Some "DEPOSIT") (Some "shop")
              (Some (real (-10))) None (Some 2) None two_accounts
              (or_intror (ex_intro _ (real (-10)) (conj eq_refl eq_refl))))
    as (Hacc & _).
  destruct (Hacc eq_refl) as (Hret & Hlog & _ & Hrule).
  split_and!; [reflexivity|reflexivity|exact Hret|exact Hlog|].
  rewrite (Hrule "DEPOSIT" eq_refl Hty two_accounts_ok). reflexivity.
Defined.

(** A reference that names no row matches no account. *)
Lemma account_missing_no_match (x : option Z) (db : database) (a : account) :
  account_exists x db = false → a ∈ accounts db → x ≠ Some (a_id a).
Proof.
  intros Hmiss Ha ->.
  assert (account_exists (Some (a_id a)) db = true) as Hex; [|congruence].
  apply account_exists_elem, list_elem_of_fmap. eauto.
Qed.

Lemma credited_other amount to_id (a : account) :
  to_id ≠ Some (a_id a) → credited amount to_id a = a.
Proof. intros Hne. unfold credited. by rewrite decide_False by congruence. Qed.

Lemma debited_other amount from_id (a : account) :
  from_id ≠ Some (a_id a) → debited amount from_id a = a.
Proof. intros Hne. unfold debited. by rewrite decide_False by congruence. Qed.

Lemma rule_row_missing type amount from_id to_id db (a : account) :
  account_exists from_id db = false → account_exists to_id db = false →
  a ∈ accounts db →
  rule_row type amount from_id to_id a = a.
Proof.
  intros Hfrom Hto Ha.
  pose proof (account_missing_no_match _ _ _ Hfrom Ha).
  pose proof (account_missing_no_match _ _ _ Hto Ha).
  unfold rule_row.
  destruct (py_eq _ _);
    [rewrite credited_other by done; by rewrite debited_other
    |rewrite debited_other by done; by rewrite credited_other].
Qed.

(** C2.  Where the specification has the call fail with NotFoundError and
    roll back, the code does neither, although the schema declares both
    references FOREIGN KEYs.  For every call the INSERT takes in which
    [from_account_id] or [to_account_id] is not null and names no existing
    account, the call returns without raising and commits the row with the
    references as given, so the log holds a reference to no account.  An
    existing account on the other side is still debited or credited by the
    rule of the type; when neither reference names an account the accounts
    table is unchanged. *)
Theorem add_transaction_dangling_reference
    date type desc amount from_id to_id file db :
  db_ok db →
  let data := (date, type, desc, amount, from_id, to_id, file) in
  insert_accepts data = true →
  (from_id ≠ None ∧ account_exists from_id db = false) ∨
  (to_id ≠ None ∧ account_exists to_id db = false) →
  let db' := (add_transaction data db).1 in
  (add_transaction data db).2 = Returned ∧
  transactions db' = transactions db ++ [stored_row data db] ∧
  t_from_account_id (stored_row data db) = from_id ∧
  t_to_account_id (stored_row data db) = to_id ∧
  ¬ log_resolves db' ∧
  (∀ s, type = Some s → s ∈ closed_set →
        accounts db' = rule_row type amount from_id to_id <$> accounts db) ∧
  (account_exists from_id db = false → account_exists to_id db = false →
   accounts db' = accounts db).
Proof.
  intros Hok data Hacc Hmiss db'. unfold db', data in *.
  destruct (insert_accepts_type _ _ _ _ _ _ _ Hacc) as [s ->].
  split_and!.
  - by apply add_transaction_returns.
  - by apply add_transaction_log.
  - done.
  - done.
  - intros Href.
    destruct (Href (stored_row (date, Some s, desc, amount, from_id, to_id, file) db))
      as [Hfrom Hto].
    { rewrite add_transaction_log by done. apply elem_of_app. right. left. }
    simpl in Hfrom, Hto.
    rewrite (resolves_ids _ db) in Hfrom by apply add_transaction_ids.
    rewrite (resolves_ids _ db) in Hto by apply add_transaction_ids.
    destruct Hmiss as [[Hne Hmiss]|[Hne Hmiss]].
    + destruct from_id; [simpl in Hfrom, Hmiss; congruence|done].
    + destruct to_id; [simpl in Hto, Hmiss; congruence|done].
  - intros s' [= <-] Hty. apply add_transaction_accounts_closed; [done| |done].
    by apply db_ok_nonzero.
  - intros Hfrom Hto.
    destruct (decide (s ∈ closed_set)) as [Hty|Hty];
      [|apply add_transaction_accounts_other; by intros s' [= <-]].
    rewrite add_transaction_accounts_closed by (done || by apply db_ok_nonzero).
    rewrite <- (list_fmap_id (accounts db)) at 2.
    apply fmap_ext_elem. intros a Ha. by apply (rule_row_missing _ _ _ _ db).
Qed.

Lemma add_transaction_dangling_reference_witness :
  let data := (Some "2024-01-04", Some "TRANSFER", Some "lost", Some (real 10),
               Some 1, Some 99, None) in
  db_ok two_accounts ∧ insert_accepts data = true ∧
  account_exists (Some 99) two_accounts = false ∧
  (add_transaction data two_accounts).2 = Returned ∧
  transactions (add_transaction data two_accounts).1
  = [Transaction 1 "2024-01-04" "TRANSFER" (Some "lost") (real 10)
                 (Some 1) (Some 99) None] ∧
  accounts (add_transaction data two_accounts).1
  = [Account 1 "Safe" (Some (real 990)); Account 2 "Bank" (Some (real 0))].
Proof.
  assert (Hty : "TRANSFER" ∈ closed_set) by (apply closed_set_cases; auto).
  destruct (add_transaction_dangling_reference
              (Some "2024-01-04") (Some "TRANSFER") (Some "lost")
              (Some (real 10)) (Some 1) (Some 99) None two_accounts
              two_accounts_ok eq_refl
              (or_intror (conj (Some_ne_None 99) eq_refl)))
    as (Hret & Hlog & _ & _ & _ & Hrule & _).
  split_and!; [apply two_accounts_ok|reflexivity|reflexivity|exact Hret| |].
  - rewrite Hlog. reflexivity.
  - rewrite (Hrule "TRANSFER" eq_refl Hty). reflexivity.
Defined.

(** The form offers existing accounts only: whatever is selected, the id
    the handler looks up is null or names a row of the list it was given. *)
Lemma selected_id_resolves (selected : option string) (db : database) :
  resolves (selected_id selected (get_accounts db)) db = true.
Proof.
  unfold get_accounts. destruct db as [accs txs sq]. simpl.
  assert (Hsub : ∀ l, selected_id selected l = None ∨
                      ∃ a, a ∈ l ∧ selected_id selected l = Some (a_id a)).
  { induction l as [|a l IH]; simpl; [by left|].
    case_decide.
    - right. exists a. split; [left|done].
    - destruct IH as [->|(b & Hb & ->)]; [by left|].
      right. exists b. split; [by right|done]. }
  destruct (Hsub accs) as [->|(a & Ha & ->)]; [done|].
  apply (account_exists_elem (a_id a) (Database accs txs sq)).
  apply list_elem_of_fmap. eauto.
Qed.

(** ** Conservation and totals *)

(** C10, as the specification states it, fails: balances are doubles, and a
    credit can be rounded away.  A DEPOSIT of 1 to the only account, which
    holds 10^16, leaves the sum of all balances where it was. *)
Lemma deposit_rounds_total :
  let db := (add_account "Vault" (real (10 ^ 16)) empty_db).1 in
  let data := (Some "2024-01-02", Some "DEPOSIT", Some "cash in", Some (real 1),
               None, Some 1, None) in
  let db' := (add_transaction data db).1 in
  account_exists (Some 1) db = true ∧
  (add_transaction data db).2 = Returned ∧
  accounts db' = accounts db ∧
  total_balance db' = total_balance db ∧
  amount_value (Some (real 1)) = 1%Qc ∧
  total_balance db' ≠ (total_balance db + amount_value (Some (real 1)))%Qc.
Proof.
  split_and!; try evaluate.
  intros H. apply (f_equal Qcanon.this) in H. vm_compute in H. discriminate.
Qed.

(** C10, amended.  For a single call of [add_transaction] that the INSERT
    takes, with a type of the closed set, references that differ when both
    are present, and no UPDATE that rounds, the sum of all balances goes up
    by exactly [amount] when only [to_account_id] names an existing account,
    down by exactly [amount] when only [from_account_id] does, and stays as
    it is when both or neither do. *)
Theorem add_transaction_total_change date type desc amount from_id to_id file db :
  db_ok db →
  type ∈ closed_set →
  (∀ z, from_id = Some z → to_id = Some z → False) →
  let data := (date, Some type, desc, amount, from_id, to_id, file) in
  insert_accepts data = true →
  updates_exact data db = true →
  let db' := (add_transaction data db).1 in
  (account_exists to_id db = true → account_exists from_id db = false →
   total_balance db' = (total_balance db + amount_value amount)%Qc) ∧
  (account_exists from_id db = true → account_exists to_id db = false →
   total_balance db' = (total_balance db - amount_value amount)%Qc) ∧
  (account_exists from_id db = true → account_exists to_id db = true →
   total_balance db' = total_balance db) ∧
  (account_exists from_id db = false → account_exists to_id db = false →
   total_balance db' = total_balance db).
Proof.
  intros Hok Hty _ data Hacc Hex db'. unfold db', data.
  rewrite total_after_add_transaction by done.
  split_and!; intros -> ->; ring.
Qed.

Lemma add_transaction_total_change_witness :
  let data := (Some "2024-01-02", Some "DEPOSIT", Some "cash in", Some (real 50),
               None, Some 2, None) in
  let db' := (add_transaction data two_accounts).1 in
  insert_accepts data = true ∧ updates_exact data two_accounts = true ∧
  total_balance two_accounts = rational 1000 ∧ amount_value (Some (real 50)) = rational 50 ∧
  total_balance db' = (total_balance two_accounts + amount_value (Some (real 50)))%Qc.
Proof.
  split_and!; [evaluate..|].
  assert (Hty : "DEPOSIT" ∈ closed_set) by (apply closed_set_cases; auto).
  destruct (add_transaction_total_change
              (Some "2024-01-02") "DEPOSIT" (Some "cash in") (Some (real 50))
              None (Some 2) None two_accounts two_accounts_ok Hty) as (Hto & _).
  - discriminate.
  - reflexivity.
  - reflexivity.
  - apply Hto; reflexivity.
Defined.

(** C5, as the specification states it, fails: a TRANSFER of 1 from an
    account that holds 10^16 to an account that holds 0 debits nothing (the
    difference is rounded back to 10^16) and credits 1, so the sum of all
    balances grows by 1. *)
Lemma transfer_rounds_total :
  let db := (add_account "Till" (real 0)
               (add_account "Vault" (real (10 ^ 16)) empty_db).1).1 in
  let data := (Some "2024-01-01", Some "TRANSFER", Some "to till", Some (real 1),
               Some 1, Some 2, None) in
  resolved_transfer db data = true ∧
  accounts (add_transactions [data] db)
  = [Account 1 "Vault" (Some (real (10 ^ 16))); Account 2 "Till" (Some (real 1))] ∧
  total_balance (add_transactions [data] db) = (total_balance db + 1)%Qc ∧
  total_balance (add_transactions [data] db) ≠ total_balance db.
Proof.
  split_and!; try evaluate.
  intros H. apply (f_equal Qcanon.this) in H. vm_compute in H. discriminate.
Qed.

(** C5, amended.  Whatever the sequence of [add_transaction] calls, when
    each is a TRANSFER whose two references name existing accounts and none
    of its UPDATEs rounds, the sum of all balances after the sequence is the
    sum before it. *)
Theorem transfers_conserve_total (calls : list transaction_data) (db : database) :
  db_ok db →
  transfers_exact calls db = true →
  total_balance (add_transactions calls db) = total_balance db.
Proof.
  revert db. induction calls as [|data calls IH]; intros db Hok Hall; [done|].
  simpl in Hall.
  apply andb_true_iff in Hall as [[Hdata Hex]%andb_true_iff Hall].
  simpl. rewrite IH by (done || by apply add_transaction_ok).
  destruct (insert_accepts data) eqn:Hacc;
    [|by rewrite add_transaction_refused].
  destruct data as [[[[[[date type] desc] amount] from_id] to_id] file].
  simpl in Hdata.
  apply andb_true_iff in Hdata as [[Hty Hfrom]%andb_true_iff Hto].
  destruct type as [type|]; [|done]. simpl in Hty.
  apply String.eqb_eq in Hty as ->.
  rewrite total_after_add_transaction, Hfrom, Hto; [ring|done| |done|done].
  apply closed_set_cases. auto.
Qed.

Lemma transfers_conserve_total_witness :
  let calls :=
    [(Some "2024-01-01", Some "TRANSFER", Some "to bank", Some (real 200),
      Some 1, Some 2, None);
     (Some "2024-01-02", Some "TRANSFER", Some "back", Some (real 75),
      Some 2, Some 1, None)] in
  transfers_exact calls two_accounts = true ∧
  accounts (add_transactions calls two_accounts)
  = [Account 1 "Safe" (Some (real 875)); Account 2 "Bank" (Some (real 125))] ∧
  total_balance (add_transactions calls two_accounts) = total_balance two_accounts.
Proof.
  split_and!; [reflexivity..|].
  apply transfers_conserve_total; [apply two_accounts_ok|reflexivity].
Defined.

(** ** The audit of balances against the log *)




(** A reference that names no account when the transaction is applied
    breaks the audit once an account is opened under the id it names. *)
Lemma audit_after_dangling_reference :
  let calls :=
    [AddAccount "Safe" (real 1000);
     AddTransaction (Some "2024-01-04", Some "DEPOSIT", Some "lost",
                     Some (real 10), None, Some 2, None);
     AddAccount "Bank" (real 0)] in
  let l := run calls (Ledger empty_db ∅) in
  run_resolves calls (Ledger empty_db ∅) = false ∧
  accounts (store l)
  = [Account 1 "Safe" (Some (real 1000)); Account 2 "Bank" (Some (real 0))] ∧
  audit_balance (transactions (store l)) 2 = rational 10.
Proof. split_and!; evaluate. Qed.

(** So does a call that rounds: the log says 10^16 + 1 where the account
    holds 10^16. *)
Lemma audit_after_rounding :
  let calls :=
    [AddAccount "Vault" (real (10 ^ 16));
     AddTransaction (Some "2024-01-02", Some "DEPOSIT", Some "cash in",
                     Some (real 1), None, Some 1, None)] in
  let l := run calls (Ledger empty_db ∅) in
  run_resolves calls (Ledger empty_db ∅) = true ∧
  run_exact calls (Ledger empty_db ∅) = false ∧
  accounts (store l) = [Account 1 "Vault" (Some (real (10 ^ 16)))] ∧
  (default 0 (opening l !! 1%Z) + audit_balance (transactions (store l)) 1
   = rational 10000000000000001)%Qc.
Proof. split_and!; evaluate. Qed.

(** ** Accounts *)

(** C6.  For every call of [add_account] with the name of an account that
    already exists the call fails, with the exception the UNIQUE constraint
    on [accounts.name] raises, and the database, the account table with it,
    is unchanged. *)
Theorem add_account_duplicate_name (name : string) (balance : REAL) (db : database) :
  (∃ a, a ∈ accounts db ∧ a_name a = name) →
  add_account name balance db
  = (db, Raised (IntegrityError "UNIQUE constraint failed: accounts.name")) ∧
  get_accounts (add_account name balance db).1 = get_accounts db.
Proof.
  intros (a & Ha & <-).
  rewrite insert_rejects_known_name; [done|].
  apply list_elem_of_fmap. eauto.
Qed.

Lemma add_account_duplicate_name_witness :
  add_account "Safe" (real 5) two_accounts
  = (two_accounts, Raised (IntegrityError "UNIQUE constraint failed: accounts.name")).
Proof.
  apply (add_account_duplicate_name "Safe" (real 5) two_accounts).
  exists (Account 1 "Safe" (Some (real 1000))). split; [left|reflexivity].
Defined.

(** ** Reset *)

(** C7.  After the confirmed reset both tables are empty, and the next
    [add_account] and the next [add_transaction] hand out the id 1, the id the
    first row gets in the database [init_database] creates ([add_transaction]
    whenever its INSERT takes the tuple; a refused call adds no row).  On a
    well-formed database the reset gives that database back. *)
Theorem reset_application_restarts_ids
    (confirm_button : bool) (session_state : gmap string bool) (db : database) :
  session_state !! "confirm_reset" = Some true →
  let db' := (reset_application confirm_button session_state db).1.2 in
  (reset_application confirm_button session_state db).2 = Returned ∧
  accounts db' = [] ∧ transactions db' = [] ∧
  (∀ name balance,
     (add_account name balance db').2 = Returned ∧
     accounts (add_account name balance db').1
     = [Account 1 name (sqlite_real balance)] ∧
     accounts (add_account name balance (init_database None)).1
     = [Account 1 name (sqlite_real balance)]) ∧
  (∀ data,
     (insert_accepts data = true →
      (add_transaction data db').2 = Returned ∧
      t_id <$> transactions (add_transaction data db').1 = [1] ∧
      t_id <$> transactions (add_transaction data (init_database None)).1 = [1]) ∧
     (insert_accepts data = false →
      transactions (add_transaction data db').1 = [])) ∧
  (db_ok db → db' = init_database None).
Proof.
  intros Hflag db'.
  destruct (reset_application_tables confirm_button _ db Hflag)
    as (Hrun & Ha & Ht & Hs).
  fold db' in Hrun, Ha, Ht, Hs.
  assert (Hseq_a : sqlite_sequence db' !! "accounts" = None).
  { rewrite Hs, lookup_delete_ne by done. apply lookup_delete_eq. }
  assert (Hseq_t : sqlite_sequence db' !! "transactions" = None).
  { rewrite Hs. apply lookup_delete_eq. }
  split_and!; try done.
  - by rewrite Hrun.
  - intros name balance.
    rewrite insert_accepts_new_name by (rewrite Ha; apply not_elem_of_nil).
    simpl. unfold next_rowid. rewrite Ha, Hseq_a. by split_and!.
  - intros data. split; intros Hacc.
    + rewrite add_transaction_returns, !add_transaction_log, !fmap_app, Ht
        by done.
      destruct data as [[[[[[date type] desc] amount] from_id] to_id] file].
      simpl. unfold next_rowid. rewrite Ht, Hseq_t. by split_and!.
    + by rewrite add_transaction_refused.
  - intros Hok. unfold db'. by rewrite reset_application_confirmed.
Qed.

Lemma reset_application_restarts_ids_witness :
  let session_state : gmap string bool := {["confirm_reset" := true]} in
  let db' := (reset_application false session_state scenario).1.2 in
  let data := (Some "2024-02-01", Some "DEPOSIT", Some "float", Some (real 7),
               None, Some 1, None) in
  a_id <$> accounts scenario = [1; 2] ∧
  t_id <$> transactions scenario = [1; 2; 3] ∧
  accounts db' = [] ∧ transactions db' = [] ∧
  accounts (add_account "Till" (real 7) db').1
  = [Account 1 "Till" (Some (real 7))] ∧
  t_id <$> transactions (add_transaction data db').1 = [1].
Proof.
  destruct (reset_application_restarts_ids false {["confirm_reset" := true]}
              scenario (lookup_singleton_eq _ _))
    as (_ & Ha & Ht & Hacc & Htx & _).
  split_and!; [reflexivity|reflexivity|exact Ha|exact Ht| |].
  - apply (Hacc "Till" (real 7)).
  - apply (Htx (Some "2024-02-01", Some "DEPOSIT", Some "float", Some (real 7),
                None, Some 1, None)). reflexivity.
Defined.

(** ** Export *)

Lemma scenario_ok : db_ok scenario.
Proof. unfold scenario. do 3 apply add_transaction_ok. apply two_accounts_ok. Qed.




(** * Further properties of the code *)

(** ** [add_transaction] beyond the balance rule *)

(** X1.  [add_transaction] raises exactly when its INSERT refuses the tuple,
    and then leaves the database as it was.  Otherwise it appends exactly
    one row; the id of the row is positive, larger than the id of every row
    of the table and larger than the counter kept in [sqlite_sequence], and
    the counter is moved to it. *)
Theorem add_transaction_appends_fresh_row (data : transaction_data) (db : database) :
  let db' := (add_transaction data db).1 in
  let id := t_id (stored_row data db) in
  (insert_accepts data = false →
   add_transaction data db = (db, Raised (refusal data))) ∧
  (insert_accepts data = true →
   (add_transaction data db).2 = Returned ∧
   transactions db' = transactions db ++ [stored_row data db] ∧
   0 < id ∧
   (∀ t, t ∈ transactions db → t_id t < id) ∧
   default 0 (sqlite_sequence db !! "transactions") < id ∧
   sqlite_sequence db' !! "transactions" = Some id).
Proof.
  intros db' id. unfold db', id. split; [apply add_transaction_refused|].
  intros Hacc. split_and!.
  - by apply add_transaction_returns.
  - by apply add_transaction_log.
  - destruct data as [[[[[[date type] desc] amount] from_id] to_id] file].
    apply next_rowid_pos.
  - intros t Ht.
    destruct data as [[[[[[date type] desc] amount] from_id] to_id] file].
    simpl. unfold next_rowid.
    assert (t_id t ≤ max_rowid (t_id <$> transactions db)); [|lia].
    apply max_rowid_elem, list_elem_of_fmap. eauto.
  - destruct data as [[[[[[date type] desc] amount] from_id] to_id] file].
    simpl. unfold next_rowid. lia.
  - rewrite add_transaction_sequence by done. apply lookup_insert_eq.
Qed.

(** X2.  [add_transaction] rewrites balances only: it never adds, removes, renames
    or reorders an account, and it leaves the counter of the accounts table
    alone. *)
Theorem add_transaction_keeps_accounts (data : transaction_data) (db : database) :
  let db' := (add_transaction data db).1 in
  a_id <$> get_accounts db' = a_id <$> get_accounts db ∧
  a_name <$> get_accounts db' = a_name <$> get_accounts db ∧
  length (get_accounts db') = length (get_accounts db) ∧
  sqlite_sequence db' !! "accounts" = sqlite_sequence db !! "accounts".
Proof.
  intros db'. unfold db', get_accounts. split_and!.
  - apply add_transaction_ids.
  - apply add_transaction_names.
  - pose proof (f_equal length (add_transaction_ids data db)) as H.
    by rewrite !length_fmap in H.
  - destruct (insert_accepts data) eqn:Hacc;
      [|by rewrite add_transaction_refused].
    rewrite add_transaction_sequence by done. by apply lookup_insert_ne.
Qed.

(** X4.  The tests [if to_account_id:] and [if from_account_id:] take the id 0 for
    no reference: with each reference null or 0 no UPDATE runs, even on a
    table that has a row of id 0. *)
Theorem add_transaction_zero_reference date type desc amount from_id to_id file db :
  from_id = None ∨ from_id = Some 0 →
  to_id = None ∨ to_id = Some 0 →
  accounts (add_transaction (date, type, desc, amount, from_id, to_id, file) db).1
  = accounts db.
Proof.
  intros Hfrom Hto.
  destruct (insert_accepts (date, type, desc, amount, from_id, to_id, file))
    eqn:Hacc; [|by rewrite add_transaction_refused].
  after_insert Hacc.
  assert (truthy from_id = false) as Hf by (by destruct Hfrom as [-> | ->]).
  assert (truthy to_id = false) as Ht by (by destruct Hto as [-> | ->]).
  rewrite Hf, Ht. by repeat destruct (py_eq _ _).
Qed.

Lemma add_transaction_zero_reference_witness :
  let db := Database [Account 0 "Till" (Some (real 5))] [] ∅ in
  account_exists (Some 0) db = true ∧
  (add_transaction
     (Some "2024-02-01", Some "DEPOSIT", Some "cash in", Some (real 20),
      None, Some 0, None) db).2 = Returned ∧
  accounts (add_transaction
              (Some "2024-02-01", Some "DEPOSIT", Some "cash in", Some (real 20),
               None, Some 0, None) db).1
  = [Account 0 "Till" (Some (real 5))].
Proof.
  split_and!; [reflexivity..|].
  apply (add_transaction_zero_reference
           (Some "2024-02-01") (Some "DEPOSIT") (Some "cash in") (Some (real 20))
           None (Some 0) None
           (Database [Account 0 "Till" (Some (real 5))] [] ∅)); auto.
Defined.

Lemma rule_row_id type amount from_id to_id (a : account) :
  a_id (rule_row type amount from_id to_id a) = a_id a.
Proof.
  unfold rule_row, credited, debited.
  destruct (py_eq _ _); repeat case_decide; done.
Qed.

(** The values of the balances, in table order. *)
Lemma balance_values_rule type amount from_id to_id (accs : list account)
    (d : Z → Qc) :
  forallb (row_exact type amount from_id to_id) accs = true →
  (λ a, (default 0 (value (a_balance a)) + d (a_id a))%Qc)
    <$> (rule_row type amount from_id to_id <$> accs)
  = (λ a, (default 0 (value (a_balance a))
           + (signed_delta (amount_value amount) from_id to_id (a_id a)
              + d (a_id a)))%Qc) <$> accs.
Proof.
  induction accs as [|a accs IH]; [done|].
  intros [Ha Haccs]%andb_true_iff. rewrite !fmap_cons, IH by done.
  f_equal. rewrite rule_row_default, rule_row_id by done. ring.
Qed.

(** X3.  A transaction whose two references are the same account is logged,
    and when none of its UPDATEs rounds it leaves the value of every balance
    as it was, whatever its type and amount: what the one UPDATE takes the
    other gives back. *)
Theorem add_transaction_same_account date type desc amount (x : option Z) file db :
  db_ok db →
  let data := (date, type, desc, amount, x, x, file) in
  insert_accepts data = true →
  updates_exact data db = true →
  transactions (add_transaction data db).1
  = transactions db ++ [stored_row data db] ∧
  (λ a, default 0%Qc (value (a_balance a))) <$> accounts (add_transaction data db).1
  = (λ a, default 0%Qc (value (a_balance a))) <$> accounts db.
Proof.
  intros Hok data Hacc Hex. unfold data in *.
  split; [by apply add_transaction_log|].
  destruct (insert_accepts_type _ _ _ _ _ _ _ Hacc) as [s ->].
  destruct (decide (s ∈ closed_set)) as [Hty|Hty].
  - rewrite add_transaction_accounts_closed by (done || by apply db_ok_nonzero).
    unfold updates_exact in Hex. rewrite decide_True in Hex by done.
    pose proof (balance_values_rule (Some s) amount x x (accounts db) (λ _, 0%Qc) Hex)
      as Hrule.
    etrans; [etrans; [|exact Hrule]|].
    + apply list_fmap_ext. intros i a _. simpl. ring.
    + apply list_fmap_ext. intros i a _. simpl. unfold signed_delta.
      case_decide; ring.
  - rewrite add_transaction_accounts_other; [done|]. by intros s' [= <-].
Qed.

Lemma add_transaction_same_account_witness :
  let data := (Some "2024-01-07", Some "TRANSFER", Some "round trip",
               Some (real 40), Some 1, Some 1, None) in
  insert_accepts data = true ∧ updates_exact data two_accounts = true ∧
  accounts (add_transaction data two_accounts).1
  = [Account 1 "Safe" (Some (real 1000)); Account 2 "Bank" (Some (real 0))] ∧
  (λ a, default 0%Qc (value (a_balance a)))
    <$> accounts (add_transaction data two_accounts).1
  = (λ a, default 0%Qc (value (a_balance a))) <$> accounts two_accounts.
Proof.
  intros data. split_and!; [reflexivity..|].
  apply (add_transaction_same_account
           (Some "2024-01-07") (Some "TRANSFER") (Some "round trip")
           (Some (real 40)) (Some 1) None two_accounts two_accounts_ok);
    reflexivity.
Defined.

(** X5.  A transaction is undone, on the balances, by the transaction with the
    same amount and the two references swapped: when no UPDATE of the two
    calls rounds, the value of every balance after both is what it was.  The
    two types need not agree as long as both are in the closed set. *)
Theorem add_transaction_reversal
    date1 date2 type1 type2 desc1 desc2 amount from_id to_id file1 file2 db :
  db_ok db →
  type1 ∈ closed_set → type2 ∈ closed_set →
  let forth := (date1, Some type1, desc1, amount, from_id, to_id, file1) in
  let back := (date2, Some type2, desc2, amount, to_id, from_id, file2) in
  let db1 := (add_transaction forth db).1 in
  let db2 := (add_transaction back db1).1 in
  insert_accepts forth = true → insert_accepts back = true →
  updates_exact forth db = true → updates_exact back db1 = true →
  (λ a, default 0%Qc (value (a_balance a))) <$> accounts db2
  = (λ a, default 0%Qc (value (a_balance a))) <$> accounts db ∧
  transactions db2
  = transactions db ++ [stored_row forth db; stored_row back db1].
Proof.
  intros Hok Hty1 Hty2 forth back db1 db2 Hacc1 Hacc2 Hex1 Hex2.
  assert (Hok1 : db_ok db1) by by apply add_transaction_ok.
  assert (Hrule1 : accounts db1
                   = rule_row (Some type1) amount from_id to_id <$> accounts db).
  { unfold db1, forth.
    by rewrite add_transaction_accounts_closed by (done || by apply db_ok_nonzero). }
  split.
  - unfold db2, back.
    rewrite add_transaction_accounts_closed by (done || by apply db_ok_nonzero).
    unfold updates_exact, back in Hex2. rewrite decide_True in Hex2 by done.
    unfold updates_exact, forth in Hex1. rewrite decide_True in Hex1 by done.
    pose proof (balance_values_rule (Some type2) amount to_id from_id (accounts db1)
                  (λ _, 0%Qc) Hex2) as Hback.
    pose proof (balance_values_rule (Some type1) amount from_id to_id (accounts db)
                  (λ id, signed_delta (amount_value amount) to_id from_id id + 0)%Qc
                  Hex1) as Hforth.
    etrans; [etrans; [|exact Hback]|].
    { apply list_fmap_ext. intros i a _. simpl. ring. }
    rewrite Hrule1. etrans; [exact Hforth|].
    apply list_fmap_ext. intros i a _. simpl. unfold signed_delta.
    repeat case_decide; ring.
  - unfold db2. rewrite add_transaction_log by done.
    unfold db1 at 1. rewrite add_transaction_log by done.
    by rewrite <- app_assoc.
Qed.

Lemma add_transaction_reversal_witness :
  let forth := (Some "2024-01-01", Some "TRANSFER", Some "to bank",
                Some (real 200), Some 1, Some 2, None) in
  let back := (Some "2024-01-02", Some "DEPOSIT", Some "undo",
               Some (real 200), Some 2, Some 1, None) in
  let db1 := (add_transaction forth two_accounts).1 in
  let db2 := (add_transaction back db1).1 in
  accounts db1
  = [Account 1 "Safe" (Some (real 800)); Account 2 "Bank" (Some (real 200))] ∧
  accounts db2
  = [Account 1 "Safe" (Some (real 1000)); Account 2 "Bank" (Some (real 0))] ∧
  (λ a, default 0%Qc (value (a_balance a))) <$> accounts db2
  = (λ a, default 0%Qc (value (a_balance a))) <$> accounts two_accounts ∧
  length (transactions db2) = 2%nat.
Proof.
  intros forth back db1 db2.
  assert (H1 : "TRANSFER" ∈ closed_set) by (apply closed_set_cases; auto).
  assert (H2 : "DEPOSIT" ∈ closed_set) by (apply closed_set_cases; auto).
  destruct (add_transaction_reversal
              (Some "2024-01-01") (Some "2024-01-02") "TRANSFER" "DEPOSIT"
              (Some "to bank") (Some "undo") (Some (real 200)) (Some 1) (Some 2)
              None None two_accounts two_accounts_ok H1 H2
              eq_refl eq_refl eq_refl eq_refl) as [Hvalues Hlog].
  split_and!; [reflexivity|reflexivity|exact Hvalues|].
  unfold db2, db1, back, forth. rewrite Hlog. reflexivity.
Defined.

(** ** [add_account] with a new name *)

Lemma total_balance_snoc (accs : list account) (a : account) :
  foldr (λ a s, default 0 (value (a_balance a)) + s)%Qc 0%Qc (accs ++ [a])
  = (foldr (λ a s, default 0 (value (a_balance a)) + s) 0 accs
     + default 0 (value (a_balance a)))%Qc.
Proof.
  induction accs as [|b accs IH]; simpl; [ring|]. rewrite IH. ring.
Qed.

Lemma fresh_name_elem (name : string) (db : database) :
  (∀ a, a ∈ accounts db → a_name a ≠ name) → name ∉ a_name <$> accounts db.
Proof.
  intros Hnew (a & -> & Ha)%list_elem_of_fmap. by apply (Hnew a).
Qed.

(** X6.  [add_account] with a name no account has returns without raising and
    appends one account with that name and balance and nothing else: the
    accounts already there and the log are untouched.  The new id is positive
    and larger than every id of the table, and the sum of all balances grows
    by the value of the opening balance.  The balance is stored as SQLite
    stores a REAL: NaN as NULL, and -0.0 as 0.0. *)
Theorem add_account_new_name (name : string) (balance : REAL) (db : database) :
  (∀ a, a ∈ accounts db → a_name a ≠ name) →
  let db' := (add_account name balance db).1 in
  ∃ id,
    (add_account name balance db).2 = Returned ∧
    get_accounts db' = get_accounts db ++ [Account id name (sqlite_real balance)] ∧
    0 < id ∧
    (∀ a, a ∈ accounts db → a_id a < id) ∧
    transactions db' = transactions db ∧
    total_balance db'
    = (total_balance db + default 0 (value (sqlite_real balance)))%Qc.
Proof.
  intros Hnew%fresh_name_elem db'. unfold db', get_accounts.
  rewrite insert_accepts_new_name by done. simpl.
  exists (next_rowid "accounts" (a_id <$> accounts db) db).
  split_and!; try done.
  - apply next_rowid_pos.
  - intros a Ha. unfold next_rowid.
    assert (a_id a ≤ max_rowid (a_id <$> accounts db)); [|lia].
    apply max_rowid_elem, list_elem_of_fmap. eauto.
  - unfold total_balance. cbn [accounts]. apply total_balance_snoc.
Qed.

Lemma two_accounts_no_till :
  ∀ a, a ∈ accounts two_accounts → a_name a ≠ "Till".
Proof.
  intros a Ha.
  change (accounts two_accounts)
    with [Account 1 "Safe" (Some (real 1000)); Account 2 "Bank" (Some (real 0))]
    in Ha.
  apply elem_of_cons in Ha as [->|Ha]; [discriminate|].
  apply elem_of_cons in Ha as [->|Ha]; [discriminate|].
  by apply elem_of_nil in Ha.
Qed.

Lemma add_account_new_name_witness :
  ∃ id, get_accounts (add_account "Till" (real 7) two_accounts).1
        = get_accounts two_accounts ++ [Account id "Till" (Some (real 7))] ∧
        0 < id ∧
        total_balance (add_account "Till" (real 7) two_accounts).1
        = (total_balance two_accounts + rational 7)%Qc.
Proof.
  destruct (add_account_new_name "Till" (real 7) two_accounts two_accounts_no_till)
    as (id & _ & Hacc & Hpos & _ & _ & Htotal).
  exists id. split_and!; [exact Hacc|exact Hpos|].
  rewrite Htotal. evaluate.
Defined.

Lemma selected_id_skip (selected : option string) (accs rest : list account) :
  (∀ a, a ∈ accs → Some (a_name a) ≠ selected) →
  selected_id selected (accs ++ rest) = selected_id selected rest.
Proof.
  induction accs as [|a accs IH]; intros Hno; [done|]. simpl.
  rewrite decide_False by (apply Hno; left).
  apply IH. intros b Hb. apply Hno. by right.
Qed.

Lemma account_name_skip (id : option Z) (accs rest : list account) :
  (∀ a, a ∈ accs → Some (a_id a) ≠ id) →
  account_name id (accs ++ rest) = account_name id rest.
Proof.
  induction accs as [|a accs IH]; intros Hno; [done|]. simpl.
  rewrite decide_False by (apply Hno; left).
  apply IH. intros b Hb. apply Hno. by right.
Qed.

Lemma filter_no_match (id : option Z) (accs : list account) :
  (∀ a, a ∈ accs → Some (a_id a) ≠ id) →
  filter (λ a, Some (a_id a) = id) accs = [].
Proof.
  induction accs as [|a accs IH]; intros Hno; [done|].
  rewrite filter_cons_False by (apply Hno; left).
  apply IH. intros b Hb. apply Hno. by right.
Qed.

(** X7.  What [add_account] stores, the form and the joined view find again: the
    lookup of the form turns the new name into the new id, and the LEFT JOIN
    of the views turns the new id into the new name, exactly once. *)
Theorem add_account_then_lookup (name : string) (balance : REAL) (db : database) :
  (∀ a, a ∈ accounts db → a_name a ≠ name) →
  let db' := (add_account name balance db).1 in
  ∃ a, last (get_accounts db') = Some a ∧
       a_name a = name ∧ a_balance a = sqlite_real balance ∧
       selected_id (Some name) (get_accounts db') = Some (a_id a) ∧
       left_join_name (Some (a_id a)) (accounts db') = [Some name] ∧
       account_exists (Some (a_id a)) db' = true.
Proof.
  intros Hnew db'. unfold db', get_accounts.
  rewrite insert_accepts_new_name by by apply fresh_name_elem. simpl.
  set (id := next_rowid "accounts" (a_id <$> accounts db) db).
  assert (Hfresh : ∀ a, a ∈ accounts db → Some (a_id a) ≠ Some id).
  { intros a Ha [= Heq]. apply (next_rowid_fresh "accounts" (a_id <$> accounts db) db).
    fold id. rewrite <- Heq. apply list_elem_of_fmap. eauto. }
  exists (Account id name (sqlite_real balance)). split_and!; try done.
  - apply last_snoc.
  - rewrite selected_id_skip; [simpl; by rewrite decide_True|].
    intros a Ha [= Heq]. by apply (Hnew a).
  - unfold left_join_name. rewrite filter_app, filter_no_match by done.
    simpl. by rewrite filter_cons_True, filter_nil by done.
  - rewrite existsb_app. simpl. rewrite Z.eqb_refl. apply orb_true_iff. auto.
Qed.

Lemma add_account_then_lookup_witness :
  ∃ a, last (get_accounts (add_account "Till" (real 7) two_accounts).1) = Some a ∧
       selected_id (Some "Till")
                   (get_accounts (add_account "Till" (real 7) two_accounts).1)
       = Some (a_id a).
Proof.
  destruct (add_account_then_lookup "Till" (real 7) two_accounts two_accounts_no_till)
    as (a & Hlast & _ & _ & Hsel & _).
  exists a. by split.
Defined.

(** ** Row ids *)

Lemma max_rowid_snoc (ids : list Z) (z : Z) :
  max_rowid (ids ++ [z]) = Z.max (max_rowid ids) (Z.max z 0).
Proof.
  unfold max_rowid. induction ids as [|y ids IH]; simpl; [lia|].
  rewrite IH. lia.
Qed.

Lemma max_rowid_seqZ (n : nat) : max_rowid (seqZ 1 (Z.of_nat n)) = Z.of_nat n.
Proof.
  induction n as [|n IH]; [done|].
  rewrite seqZ_S, max_rowid_snoc, IH. lia.
Qed.

(** On a dense table AUTOINCREMENT picks the next integer. *)
Lemma dense_next_rowid (table : string) (ids : list Z) (db : database) :
  dense table ids db →
  next_rowid table ids db = Z.of_nat (S (length ids)).
Proof.
  intros [Hids Hseq]. unfold next_rowid. rewrite Hseq.
  remember (length ids) as n eqn:Hn.
  assert (Hmax : max_rowid ids = Z.of_nat n)
    by (rewrite Hids; apply max_rowid_seqZ).
  rewrite Hmax. case_decide; simpl; lia.
Qed.

Lemma dense_snoc (table : string) (ids : list Z) (db db' : database) :
  dense table ids db →
  sqlite_sequence db' = <[table := next_rowid table ids db]> (sqlite_sequence db) →
  dense table (ids ++ [next_rowid table ids db]) db'.
Proof.
  intros Hdense Hseq. rewrite (dense_next_rowid _ _ _ Hdense) in *.
  destruct Hdense as [Hids _]. split.
  - rewrite length_app. simpl. rewrite Nat.add_1_r, seqZ_S, <- Hids.
    f_equal. f_equal. lia.
  - rewrite Hseq, lookup_insert_eq, decide_False by (by destruct ids).
    rewrite length_app. simpl. by rewrite Nat.add_1_r.
Qed.

Lemma dense_frame (table : string) (ids : list Z) (db db' : database) :
  dense table ids db →
  sqlite_sequence db' !! table = sqlite_sequence db !! table →
  dense table ids db'.
Proof. intros [Hids Hseq] Heq. split; [done|by rewrite Heq]. Qed.

Lemma dense_init : both_dense (init_database None).
Proof. by split. Qed.

Lemma dense_add_account name balance db :
  both_dense db → both_dense (add_account name balance db).1.
Proof.
  intros [Ha Ht].
  destruct (decide (name ∈ a_name <$> accounts db)) as [Hdup|Hnew].
  { by rewrite insert_rejects_known_name. }
  rewrite insert_accepts_new_name by done. split; simpl.
  - rewrite fmap_app. simpl. by apply (dense_snoc _ _ db).
  - apply (dense_frame _ _ db); [done|]. simpl. by apply lookup_insert_ne.
Qed.

Lemma dense_add_transaction data db :
  both_dense db → both_dense (add_transaction data db).1.
Proof.
  intros [Ha Ht].
  destruct (insert_accepts data) eqn:Hacc;
    [|by rewrite add_transaction_refused].
  split.
  - rewrite add_transaction_ids. apply (dense_frame _ _ db); [done|].
    rewrite add_transaction_sequence by done. by apply lookup_insert_ne.
  - rewrite add_transaction_log, fmap_app by done. simpl.
    destruct data as [[[[[[date type] desc] amount] from_id] to_id] file].
    apply (dense_snoc _ _ db); [done|].
    by rewrite add_transaction_sequence.
Qed.

Lemma dense_reset confirm_button session_state db :
  both_dense db →
  both_dense (reset_application confirm_button session_state db).1.2.
Proof.
  intros Hdense.
  destruct (decide (session_state !! "confirm_reset" = Some true)) as [Hflag|Hflag];
    [|by rewrite reset_application_idle].
  destruct (reset_application_tables confirm_button _ db Hflag)
    as (_ & Ha & Ht & Hs).
  unfold both_dense. rewrite Ha, Ht.
  split; (split; [done|]); rewrite Hs; simpl.
  - rewrite lookup_delete_ne by done. apply lookup_delete_eq.
  - apply lookup_delete_eq.
Qed.

Lemma dense_run (calls : list call) : ∀ l : ledger,
  both_dense (store l) → both_dense (store (run calls l)).
Proof.
  induction calls as [|c calls IH]; intros l Hdense; [done|].
  simpl. apply IH. destruct c as [name balance|data|]; simpl.
  - pose proof (dense_add_account name balance (store l) Hdense) as Hd.
    by destruct (add_account name balance (store l)) as [db' [|e]].
  - by apply dense_add_transaction.
  - by apply dense_reset.
Qed.

(** X8.  In every state reached from the empty database by calls of
    [add_account], [add_transaction] and the confirmed reset, the ids of the
    accounts are 1, 2, ..., n in the order [get_accounts] lists them, the ids
    of the transactions are 1, 2, ..., m in log order, and the two counters of
    [sqlite_sequence] stand at n and m. *)
Theorem row_ids_are_consecutive (calls : list call) :
  let db := store (run calls (Ledger empty_db ∅)) in
  dense "accounts" (a_id <$> get_accounts db) db ∧
  dense "transactions" (t_id <$> transactions db) db.
Proof.
  apply (dense_run calls (Ledger empty_db ∅)). apply dense_init.
Qed.

(** ** The joined views *)

Lemma account_name_found (a : account) (accs : list account) :
  NoDup (a_id <$> accs) → a ∈ accs →
  account_name (Some (a_id a)) accs = Some (a_name a).
Proof.
  induction accs as [|b accs IH]; intros Hnd Ha; [by apply elem_of_nil in Ha|].
  rewrite fmap_cons in Hnd. apply NoDup_cons in Hnd as [Hfresh Hnd]. simpl.
  apply elem_of_cons in Ha as [->|Ha]; [by rewrite decide_True|].
  rewrite decide_False; [by apply IH|].
  intros [= Heq]. apply Hfresh. rewrite Heq. apply list_elem_of_fmap. eauto.
Qed.

Lemma account_name_missing (id : option Z) (db : database) :
  account_exists id db = false → account_name id (accounts db) = None.
Proof.
  intros Hmiss.
  assert (Hno : ∀ a, a ∈ accounts db → Some (a_id a) ≠ id)
    by (intros a Ha Heq; by apply (account_missing_no_match id db a Hmiss Ha)).
  rewrite <- (app_nil_r (accounts db)). by rewrite account_name_skip.
Qed.

(** X9.  [get_transactions] lists every transaction once, in log order, under its
    id.  The From Account and To Account columns hold the name of the account
    the reference names, and None when the reference is null or names no
    account: the LEFT JOIN keeps such a transaction in the view. *)
Theorem get_transactions_view (db : database) :
  db_ok db →
  get_transactions db = view_row db <$> transactions db ∧
  length (get_transactions db) = length (transactions db) ∧
  ∀ t, t ∈ transactions db →
    ∃ row, row ∈ get_transactions db ∧
      row !! 0%nat = Some (PyInt (t_id t)) ∧
      (∀ a, a ∈ accounts db → t_from_account_id t = Some (a_id a) →
            row !! 5%nat = Some (PyStr (a_name a))) ∧
      (account_exists (t_from_account_id t) db = false →
       row !! 5%nat = Some PyNone) ∧
      (∀ a, a ∈ accounts db → t_to_account_id t = Some (a_id a) →
            row !! 6%nat = Some (PyStr (a_name a))) ∧
      (account_exists (t_to_account_id t) db = false →
       row !! 6%nat = Some PyNone).
Proof.
  intros Hok. rewrite get_transactions_rows by done.
  split_and!; [done|by rewrite length_fmap|].
  intros t Ht. exists (view_row db t).
  split; [apply list_elem_of_fmap; eauto|].
  unfold view_row, export_row. simpl. split_and!; [done|..].
  - intros a Ha ->. by rewrite account_name_found by (apply Hok || done).
  - intros Hmiss. by rewrite account_name_missing.
  - intros a Ha ->. by rewrite account_name_found by (apply Hok || done).
  - intros Hmiss. by rewrite account_name_missing.
Qed.

Lemma get_transactions_view_witness :
  length (get_transactions scenario) = 3%nat.
Proof.
  destruct (get_transactions_view scenario scenario_ok) as (_ & Hlen & _).
  exact Hlen.
Defined.

(** X10.  Whenever [export_transactions] returns, the table it has written
    is the view of [get_transactions] without its first column, the
    transaction id.  This holds on every database. *)
Theorem export_is_view_without_id
    (now : Z) (db : database) (files files' : gmap string disk_file) (path : string) :
  export_transactions now db files = (files', Ok path) →
  ∃ df, files' !! path = Some (Workbook df now) ∧
        rows df = tail <$> get_transactions db.
Proof.
  intros (-> & -> & _)%export_transactions_returned.
  exists (export_frame db). split; [apply lookup_insert_eq|].
  apply export_frame_tail.
Qed.

Lemma export_is_view_without_id_witness :
  ∃ df, (export_transactions 1 scenario ∅).1 !! excel_path = Some (Workbook df 1) ∧
        rows df = tail <$> get_transactions scenario.
Proof.
  apply (export_is_view_without_id 1 scenario ∅
           (export_transactions 1 scenario ∅).1 excel_path).
  reflexivity.
Defined.

Lemma account_name_keys (id : option Z) (accs : list account) :
  ∀ accs' : list account,
  (λ a, (a_id a, a_name a)) <$> accs' = (λ a, (a_id a, a_name a)) <$> accs →
  account_name id accs' = account_name id accs.
Proof.
  induction accs as [|a accs IH]; intros [|a' accs'] Hkeys; try done.
  rewrite !fmap_cons in Hkeys. injection Hkeys as Hid Hname Hrest.
  simpl. rewrite Hid, Hname. case_decide; [done|]. by apply IH.
Qed.

(** The frame after one more accepted transaction is the frame before it
    with one row added at the end. *)
Lemma export_frame_add_transaction data db :
  db_ok db → insert_accepts data = true →
  let db' := (add_transaction data db).1 in
  columns (export_frame db') = columns (export_frame db) ∧
  rows (export_frame db')
  = rows (export_frame db) ++ [export_row db' (stored_row data db)].
Proof.
  intros Hok Hacc db'.
  assert (Hok' : db_ok db') by by apply add_transaction_ok.
  rewrite !export_frame_rows by done. split; [done|]. simpl.
  unfold db'. rewrite add_transaction_log, fmap_app by done.
  simpl. f_equal.
  apply fmap_ext_elem. intros t _. unfold export_row.
  by rewrite !(account_name_keys _ (accounts db)
                 (accounts (add_transaction data db).1))
    by apply add_transaction_keys.
Qed.

(** X11.  When an export before and an export after one more accepted
    transaction both return, the table of the second is the table of the
    first with one row added at the end: no earlier row changes. *)
Theorem export_after_add_transaction
    (now now' : Z) (data : transaction_data) (db : database)
    (files : gmap string disk_file) :
  db_ok db →
  insert_accepts data = true →
  let db' := (add_transaction data db).1 in
  (export_transactions now db files).2 = Ok excel_path →
  (export_transactions now' db' files).2 = Ok excel_path →
  ∃ df df',
    (export_transactions now db files).1 !! excel_path = Some (Workbook df now) ∧
    (export_transactions now' db' files).1 !! excel_path = Some (Workbook df' now') ∧
    columns df' = columns df ∧
    rows df' = rows df ++ [export_row db' (stored_row data db)].
Proof.
  intros Hok Hacc db' H1 H2.
  destruct (export_transactions now db files) as [files1 r1] eqn:E1.
  destruct (export_transactions now' db' files) as [files2 r2] eqn:E2.
  simpl in H1, H2. subst r1 r2.
  apply export_transactions_returned in E1 as (_ & -> & _).
  apply export_transactions_returned in E2 as (_ & -> & _).
  exists (export_frame db), (export_frame db').
  destruct (export_frame_add_transaction data db Hok Hacc) as [Hcols Hrows].
  split_and!; [apply lookup_insert_eq..|done|done].
Qed.

Lemma export_after_add_transaction_witness :
  let data := (Some "2024-01-01", Some "TRANSFER", Some "to bank", Some (real 200),
               Some 1, Some 2, None) in
  ∃ df', (export_transactions 2 (add_transaction data two_accounts).1 ∅).1
           !! excel_path = Some (Workbook df' 2) ∧
         rows df'
         = [[PyStr "2024-01-01"; PyStr "TRANSFER"; PyStr "to bank";
             PyFloat (real 200); PyStr "Safe"; PyStr "Bank"; PyNone]].
Proof.
  intros data.
  destruct (export_after_add_transaction 1 2 data two_accounts ∅ two_accounts_ok
              eq_refl eq_refl eq_refl)
    as (df & df' & Hdf & Hdf' & _ & Hrows).
  exists df'. split; [exact Hdf'|].
  rewrite Hrows.
  assert (Hempty : (export_transactions 1 two_accounts ∅).1 !! excel_path
                   = Some (Workbook (export_frame two_accounts) 1)) by reflexivity.
  rewrite Hempty in Hdf. injection Hdf as <-. reflexivity.
Defined.

(** ** The reset flow *)

(** X12.  A reset takes two runs of [reset_application].  With the flag of the
    session unset, the run in which "Confirm Reset" is pressed deletes
    nothing and only sets the flag.  The next run deletes both tables of the
    database it finds, whatever its button returns, and clears the flag, so
    that the run after it deletes nothing again.  A run with the flag unset
    and no press leaves database and flag as they are. *)
Theorem reset_takes_two_runs
    (session_state : gmap string bool) (db db2 db3 : database) (button2 : bool) :
  session_state !! "confirm_reset" ≠ Some true →
  let run1 := reset_application true session_state db in
  let run2 := reset_application button2 run1.1.1 db2 in
  let run3 := reset_application false run2.1.1 db3 in
  run1.1.2 = db ∧ run1.1.1 !! "confirm_reset" = Some true ∧
  accounts run2.1.2 = [] ∧ transactions run2.1.2 = [] ∧
  run2.1.1 !! "confirm_reset" = Some false ∧
  run3.1.2 = db3 ∧
  (reset_application false session_state db).1.2 = db ∧
  (reset_application false session_state db).1.1 !! "confirm_reset" = Some false.
Proof.
  intros Hflag run1 run2 run3.
  assert (Hget : default false (session_state !! "confirm_reset") = false).
  { destruct (session_state !! "confirm_reset") as [[]|]; done. }
  assert (Hrun1 : run1 = (<["confirm_reset" := true]> session_state, db, Returned)).
  { unfold run1, reset_application. by rewrite Hget. }
  assert (Hset : run1.1.1 !! "confirm_reset" = Some true).
  { rewrite Hrun1. apply lookup_insert_eq. }
  destruct (reset_application_tables button2 run1.1.1 db2 Hset)
    as (Hrun2 & Ha & Ht & _).
  fold run2 in Hrun2, Ha, Ht.
  assert (Hclear : run2.1.1 !! "confirm_reset" = Some false).
  { rewrite Hrun2. apply lookup_insert_eq. }
  split_and!; try done.
  - by rewrite Hrun1.
  - unfold run3, reset_application. by rewrite Hclear.
  - unfold reset_application. by rewrite Hget.
  - unfold reset_application. rewrite Hget. apply lookup_insert_eq.
Qed.

Lemma reset_takes_two_runs_witness :
  let run1 := reset_application true ∅ scenario in
  let run2 := reset_application false run1.1.1 scenario in
  accounts run1.1.2 = accounts scenario ∧ accounts run2.1.2 = [].
Proof.
  assert (Hflag : (∅ : gmap string bool) !! "confirm_reset" ≠ Some true)
    by (rewrite lookup_empty; discriminate).
  destruct (reset_takes_two_runs ∅ scenario scenario scenario false Hflag)
    as (H1 & _ & H2 & _).
  split; [by rewrite H1|exact H2].
Defined.

(** ** Paths in the upload folder *)

Lemma upload_path_cases (name : string) :
  (String.prefix "/" name = true ∧ os_path_join UPLOAD_FOLDER name = name) ∨
  (String.prefix "/" name = false ∧
   os_path_join UPLOAD_FOLDER name = "./uploads/" +:+ name).
Proof.
  unfold os_path_join. destruct (String.prefix "/" name); [by left|by right].
Qed.

(** X13.  The handler of the form stores an upload under
    [os.path.join(UPLOAD_FOLDER, name)].  Different names give different
    paths, and the path is the one [export_transactions] writes to exactly
    when the name is [transactions.xlsx]. *)
Theorem upload_path_injective (name1 name2 : string) :
  (os_path_join UPLOAD_FOLDER name1 = os_path_join UPLOAD_FOLDER name2 →
   name1 = name2) ∧
  (os_path_join UPLOAD_FOLDER name1 = excel_path ↔ name1 = "transactions.xlsx") ∧
  (∀ now db files files' path,
     export_transactions now db files = (files', Ok path) →
     (os_path_join UPLOAD_FOLDER name1 = path ↔ name1 = "transactions.xlsx")).
Proof.
  assert (Hinj : ∀ n1 n2, os_path_join UPLOAD_FOLDER n1 = os_path_join UPLOAD_FOLDER n2 →
                          n1 = n2).
  { intros n1 n2.
    destruct (upload_path_cases n1) as [[Hp1 ->]|[Hp1 ->]],
             (upload_path_cases n2) as [[Hp2 ->]|[Hp2 ->]]; try done.
    - intros ->. by simpl in Hp1.
    - intros <-. by simpl in Hp2.
    - intros [= H]. by cbv in H. }
  assert (Hpath : ∀ n, os_path_join UPLOAD_FOLDER n = excel_path ↔
                       n = "transactions.xlsx").
  { intros n. unfold excel_path. split; [apply Hinj|by intros ->]. }
  split_and!; [apply Hinj|apply Hpath|].
  intros now db files files' path (-> & _)%export_transactions_returned.
  apply Hpath.
Qed.

(** ** The "Add Transaction" form *)

Lemma selected_id_found (a : account) (accs : list account) :
  NoDup (a_name <$> accs) → a ∈ accs →
  selected_id (Some (a_name a)) accs = Some (a_id a).
Proof.
  induction accs as [|b accs IH]; intros Hnd Ha; [by apply elem_of_nil in Ha|].
  rewrite fmap_cons in Hnd. apply NoDup_cons in Hnd as [Hfresh Hnd]. simpl.
  apply elem_of_cons in Ha as [->|Ha]; [by rewrite decide_True|].
  rewrite decide_False; [by apply IH|].
  intros [= Heq]. apply Hfresh. rewrite Heq. apply list_elem_of_fmap. eauto.
Qed.

Lemma selected_id_none (accs : list account) : selected_id None accs = None.
Proof.
  induction accs as [|c accs IH]; [done|]. simpl. exact IH.
Qed.

(** With the upload written and the database file left alone, the handler is
    one call of [add_transaction]. *)
Lemma sidebar_add_transaction_eq date type desc amount from_account to_account
    uploaded_file accs db files :
  upload_written uploaded_file db files →
  ∃ file_path files',
    sidebar_add_transaction date type desc amount from_account to_account
                            uploaded_file accs db files
    = ((add_transaction (Some date, Some type, Some desc, Some amount,
                         selected_id from_account accs,
                         selected_id to_account accs, file_path) db).1,
       files',
       (add_transaction (Some date, Some type, Some desc, Some amount,
                         selected_id from_account accs,
                         selected_id to_account accs, file_path) db).2).
Proof.
  intros Hup. unfold sidebar_add_transaction.
  destruct uploaded_file as [u|]; simpl in Hup.
  - destruct Hup as [files' ->]. by do 2 eexists.
  - by do 2 eexists.
Qed.

(** X14.  From the form to the view and back.  When the two select boxes hold the
    names of accounts [a] and [b], the upload (if any) is written without
    touching the database file, and the INSERT takes the tuple, the handler
    logs a transaction whose references are the ids of [a] and [b], and the
    last row of [get_transactions] shows the values entered, with the two
    names selected, under the new id.  A select box left at None gives a
    null reference. *)
Theorem form_entry_shows_in_view
    date type desc amount (uploaded_file : option upload) (a b : account) db files :
  db_ok db → a ∈ accounts db → b ∈ accounts db →
  upload_written uploaded_file db files →
  insert_accepts (Some date, Some type, Some desc, Some amount,
                  Some (a_id a), Some (a_id b), None) = true →
  let r := sidebar_add_transaction date type desc amount
             (Some (a_name a)) (Some (a_name b)) uploaded_file
             (get_accounts db) db files in
  r.2 = Returned ∧
  selected_id None (get_accounts db) = None ∧
  ∃ t, last (transactions r.1.1) = Some t ∧
       t_from_account_id t = Some (a_id a) ∧
       t_to_account_id t = Some (a_id b) ∧
       last (get_transactions r.1.1)
       = Some [PyInt (t_id t); PyStr date; PyStr type; PyStr desc;
               PyFloat (default 0%float (sqlite_real amount));
               PyStr (a_name a); PyStr (a_name b); py_opt_str (t_file_path t)].
Proof.
  intros Hok Ha Hb Hup Hacc r. unfold r. clear r.
  destruct (sidebar_add_transaction_eq date type desc amount (Some (a_name a))
              (Some (a_name b)) uploaded_file (get_accounts db) db files Hup)
    as (file_path & files' & ->).
  unfold get_accounts.
  rewrite !selected_id_found by (apply Hok || done).
  set (data := (Some date, Some type, Some desc, Some amount,
                Some (a_id a), Some (a_id b), file_path)).
  assert (Hacc' : insert_accepts data = true) by exact Hacc.
  assert (Hok' : db_ok (add_transaction data db).1) by by apply add_transaction_ok.
  cbn [fst snd]. split_and!.
  - by apply add_transaction_returns.
  - apply selected_id_none.
  - exists (stored_row data db).
    rewrite get_transactions_rows, add_transaction_log, fmap_app by done.
    simpl. rewrite !last_snoc. split_and!; try done.
    f_equal. unfold view_row, export_row. simpl.
    rewrite !(account_name_keys _ (accounts db) _ (add_transaction_keys data db)).
    by rewrite !account_name_found by (apply Hok || done).
Qed.

Lemma form_entry_shows_in_view_witness :
  let r := sidebar_add_transaction "2024-01-01" "TRANSFER" "to bank" (real 200)
             (Some "Safe") (Some "Bank") None (get_accounts two_accounts)
             two_accounts ∅ in
  ∃ t, last (transactions r.1.1) = Some t ∧
       t_from_account_id t = Some 1 ∧ t_to_account_id t = Some 2 ∧
       last (get_transactions r.1.1)
       = Some [PyInt (t_id t); PyStr "2024-01-01"; PyStr "TRANSFER";
               PyStr "to bank"; PyFloat (real 200);
               PyStr "Safe"; PyStr "Bank"; py_opt_str (t_file_path t)].
Proof.
  assert (Ha : Account 1 "Safe" (Some (real 1000)) ∈ accounts two_accounts) by left.
  assert (Hb : Account 2 "Bank" (Some (real 0)) ∈ accounts two_accounts)
    by (right; left).
  destruct (form_entry_shows_in_view
              "2024-01-01" "TRANSFER" "to bank" (real 200) None
              _ _ two_accounts ∅ two_accounts_ok Ha Hb I eq_refl)
    as (_ & _ & t & Hlast & Hfrom & Hto & Hview).
  exists t. by split_and!.
Defined.

(** X21.  Whatever the two select boxes of the form return, the handler
    (called with the list of accounts just fetched, the upload written
    without touching the database file) never logs a reference to a missing
    account: it is one call of [add_transaction] whose references are null
    or ids of the table.  When the INSERT takes the tuple the call returns
    and appends one row with such references; when it does not, the handler
    raises and the database is as before. *)
Theorem form_logs_existing_accounts
    date type desc amount (from_account to_account : option string)
    (uploaded_file : option upload) (db : database) (files : gmap string disk_file) :
  upload_written uploaded_file db files →
  let r := sidebar_add_transaction date type desc amount from_account to_account
             uploaded_file (get_accounts db) db files in
  ∃ file_path,
    let data := (Some date, Some type, Some desc, Some amount,
                 selected_id from_account (get_accounts db),
                 selected_id to_account (get_accounts db), file_path) in
    r.1.1 = (add_transaction data db).1 ∧
    r.2 = (add_transaction data db).2 ∧
    call_resolves (AddTransaction data) db = true ∧
    (insert_accepts data = true →
     r.2 = Returned ∧
     ∃ t, transactions r.1.1 = transactions db ++ [t] ∧
          (t_from_account_id t = None ∨
           ∃ a, a ∈ accounts r.1.1 ∧ t_from_account_id t = Some (a_id a)) ∧
          (t_to_account_id t = None ∨
           ∃ a, a ∈ accounts r.1.1 ∧ t_to_account_id t = Some (a_id a))) ∧
    (insert_accepts data = false → r.1.1 = db ∧ r.2 = Raised (refusal data)).
Proof.
  intros Hup r. unfold r. clear r.
  destruct (sidebar_add_transaction_eq date type desc amount from_account
              to_account uploaded_file (get_accounts db) db files Hup)
    as (file_path & files' & ->).
  exists file_path. cbn [fst snd].
  set (data := (Some date, Some type, Some desc, Some amount,
                selected_id from_account (get_accounts db),
                selected_id to_account (get_accounts db), file_path)).
  split_and!; [done|done| | |].
  - simpl. by rewrite !selected_id_resolves.
  - intros Hacc.
    split; [by apply add_transaction_returns|].
    exists (stored_row data db). split; [by apply add_transaction_log|]. simpl.
    assert (Hex : ∀ x, resolves x db = true →
              x = None ∨ ∃ a, a ∈ accounts (add_transaction data db).1 ∧
                              x = Some (a_id a)).
    { intros [z|] Hx; [right|by left].
      apply account_exists_elem in Hx.
      rewrite <- (add_transaction_ids data db) in Hx.
      apply list_elem_of_fmap in Hx as (a & -> & Ha). eauto. }
    split; apply Hex, selected_id_resolves.
  - intros Hacc. by rewrite add_transaction_refused.
Qed.

Lemma form_logs_existing_accounts_witness :
  let receipt :=
    Upload "receipt.pdf"
           (λ db files, (db, <["./uploads/receipt.pdf" := Uploaded "scan"]> files,
                         Returned)) in
  let r := sidebar_add_transaction "2024-01-02" "DEPOSIT" "cash in" (real 50)
             None (Some "Bank") (Some receipt) (get_accounts two_accounts)
             two_accounts ∅ in
  r.2 = Returned ∧
  transactions r.1.1
  = [Transaction 1 "2024-01-02" "DEPOSIT" (Some "cash in") (real 50) None (Some 2)
                 (Some "./uploads/receipt.pdf")] ∧
  r.1.2 !! "./uploads/receipt.pdf" = Some (Uploaded "scan").
Proof.
  intros receipt r.
  assert (Hup : upload_written (Some receipt) two_accounts ∅) by (by eexists).
  destruct (form_logs_existing_accounts "2024-01-02" "DEPOSIT" "cash in" (real 50)
              None (Some "Bank") (Some receipt) two_accounts ∅ Hup)
    as (file_path & _ & Hout & _).
  split_and!; [|reflexivity..].
  unfold r. rewrite Hout. reflexivity.
Defined.

(** ** Runs of the script *)

Lemma log_resolves_add_account name balance db :
  log_resolves db → log_resolves (add_account name balance db).1.
Proof.
  intros Href.
  destruct (decide (name ∈ a_name <$> accounts db)) as [Hdup|Hnew].
  { by rewrite insert_rejects_known_name. }
  rewrite insert_accepts_new_name by done. simpl.
  intros t Ht. destruct (Href t Ht) as [Hfrom Hto].
  split; eapply resolves_grow; done.
Qed.

Lemma log_resolves_add_transaction data db :
  call_resolves (AddTransaction data) db = true →
  log_resolves db → log_resolves (add_transaction data db).1.
Proof.
  intros Hres Href.
  destruct (insert_accepts data) eqn:Hacc;
    [|by rewrite add_transaction_refused].
  destruct data as [[[[[[date type] desc] amount] from_id] to_id] file].
  apply andb_true_iff in Hres as [Hfrom Hto]. intros t.
  set (data := (date, type, desc, amount, from_id, to_id, file)) in *.
  rewrite add_transaction_log by done.
  rewrite !(resolves_ids _ db _ (add_transaction_ids data db)).
  intros [Ht| ->%list_elem_of_singleton]%elem_of_app; [by apply Href|done].
Qed.

(** What every step of a run keeps, the run keeps when its upload, if any,
    does not reach the database file. *)
Lemma script_run_invariant (P : database → Prop) now w session_state file files :
  upload_outside (w_uploaded_file w) →
  P (init_database file) →
  (∀ name balance db, P db → P (add_account name balance db).1) →
  (∀ data db, call_resolves (AddTransaction data) db = true →
              P db → P (add_transaction data db).1) →
  (∀ confirm_button db,
     P db → P (reset_application confirm_button session_state db).1.2) →
  P (script_run now w session_state file files).1.1.2.
Proof.
  intros Hup H0 Hadd Htx Hreset. unfold script_run.
  set (db0 := init_database file) in *.
  destruct (if w_add_account w then _ else _) as [db1 out1] eqn:E1.
  assert (H1 : P db1 ∧ (w_add_account w = false → db1 = db0)).
  { destruct (w_add_account w).
    - split; [|done]. apply (f_equal fst) in E1. simpl in E1. subst db1.
      by apply Hadd.
    - injection E1 as <- <-. by split. }
  destruct H1 as [H1 Hsame].
  destruct out1 as [|e1]; [|done].
  assert (Haccs : (if w_add_account w then get_accounts db1 else get_accounts db0)
                  = get_accounts db1).
  { destruct (w_add_account w); [done|]. by rewrite Hsame. }
  rewrite Haccs.
  destruct (if w_add_transaction w then _ else _) as [[db2 files2] out2] eqn:E2.
  assert (H2 : P db2).
  { destruct (w_add_transaction w).
    - unfold sidebar_add_transaction in E2.
      destruct (w_uploaded_file w) as [u|]; simpl in Hup.
      + pose proof (Hup db1 files) as Hdb.
        destruct (up_write u db1 files) as [[db' files'] [|e]];
          simpl in Hdb; subst db'.
        * injection E2 as <- <- <-.
          apply Htx; [|done]. simpl. by rewrite !selected_id_resolves.
        * by injection E2 as <- <- <-.
      + injection E2 as <- <- <-.
        apply Htx; [|done]. simpl. by rewrite !selected_id_resolves.
    - by injection E2 as <- <- <-. }
  destruct out2 as [|e2]; [|done].
  pose proof (Hreset (w_confirm_reset w) db2 H2) as H3.
  pose proof (reset_application_returns (w_confirm_reset w) session_state db2)
    as Hret.
  destruct (reset_application (w_confirm_reset w) session_state db2)
    as [[ss3 db3] out3].
  simpl in H3, Hret. subst out3.
  destruct (w_export w); [|done].
  by destruct (export_transactions now db3 files2) as [files3 [path|e3]].
Qed.

(** X16.  A pending reset is carried out by the next run that is not cut short,
    whatever caused that run.  The run ends with both tables empty and the
    flag cleared, also when it has just added an account or a transaction,
    and an export requested in it writes a table without rows. *)
Theorem script_run_pending_reset
    (now : Z) (w : widgets) (session_state : gmap string bool)
    (file : option database) (files : gmap string disk_file) :
  session_state !! "confirm_reset" = Some true →
  let r := script_run now w session_state file files in
  r.2 = Returned →
  accounts r.1.1.2 = [] ∧ transactions r.1.1.2 = [] ∧
  r.1.1.1 !! "confirm_reset" = Some false ∧
  (w_export w = true →
   ∃ df, r.1.2 !! "./uploads/transactions.xlsx" = Some (Workbook df now) ∧
         rows df = []).
Proof.
  intros Hflag r. unfold r, script_run. clear r.
  destruct (if w_add_account w then _ else _) as [db1 [|e1]]; [|done].
  destruct (if w_add_transaction w then _ else _) as [[db2 files2] [|e2]]; [|done].
  destruct (reset_application_tables (w_confirm_reset w) session_state db2 Hflag)
    as (Hrun & Ha & Ht & _).
  rewrite Hrun in *. cbn [fst snd] in Ha, Ht.
  set (db3 := (reset_application (w_confirm_reset w) session_state db2).1.2) in *.
  assert (Hframe : rows (export_frame db3) = []).
  { unfold export_frame. by rewrite Ht. }
  assert (Hexport : export_transactions now db3 files2
                    = (<[excel_path := Workbook (export_frame db3) now]> files2,
                       Ok excel_path)).
  { apply export_transactions_written; by rewrite Hframe. }
  destruct (w_export w); [rewrite Hexport|]; cbn [fst snd]; intros _;
    (split_and!; [done|done|apply lookup_insert_eq|]); [|done].
  intros _. exists (export_frame db3). split; [apply lookup_insert_eq|done].
Qed.

Lemma script_run_pending_reset_witness :
  let w := Widgets "Till" (real 5) false
                   "2024-01-06" "DEPOSIT" "cash in" (real 20) None (Some "Bank")
                   None true false true in
  let r := script_run 1 w {["confirm_reset" := true]} (Some two_accounts) ∅ in
  accounts r.1.1.2 = [] ∧ transactions r.1.1.2 = [] ∧
  ∃ df, r.1.2 !! "./uploads/transactions.xlsx" = Some (Workbook df 1) ∧
        rows df = [].
Proof.
  intros w r.
  assert (Hret : r.2 = Returned) by (vm_compute; reflexivity).
  destruct (script_run_pending_reset 1 w {["confirm_reset" := true]}
              (Some two_accounts) ∅ (lookup_singleton_eq _ _) Hret)
    as (Ha & Ht & _ & Hexport).
  split_and!; [exact Ha|exact Ht|]. by apply Hexport.
Defined.

(** X17.  With no reset pending a run whose upload, if any, does not reach
    the database file deletes nothing: the
    accounts the run found are still there at its end, in place, with their
    ids and names, and so is every row of the log. *)
Theorem script_run_keeps_rows
    (now : Z) (w : widgets) (session_state : gmap string bool)
    (file : option database) (files : gmap string disk_file) :
  session_state !! "confirm_reset" ≠ Some true →
  upload_outside (w_uploaded_file w) →
  let db0 := init_database file in
  let db' := (script_run now w session_state file files).1.1.2 in
  (λ a, (a_id a, a_name a)) <$> get_accounts db0
    `prefix_of` (λ a, (a_id a, a_name a)) <$> get_accounts db' ∧
  transactions db0 `prefix_of` transactions db'.
Proof.
  intros Hflag Hup db0 db'. unfold db', get_accounts. clear db'.
  apply (script_run_invariant
           (λ db, account_keys db0 `prefix_of` account_keys db ∧
                  transactions db0 `prefix_of` transactions db)); try done.
  - intros name balance db [Hk Ht].
    destruct (decide (name ∈ a_name <$> accounts db)) as [Hdup|Hnew].
    { by rewrite insert_rejects_known_name. }
    rewrite insert_accepts_new_name by done. unfold account_keys. simpl.
    rewrite fmap_app. split; [|done].
    etrans; [exact Hk|]. by apply prefix_app_r.
  - intros data db _ [Hk Ht]. unfold account_keys.
    rewrite add_transaction_keys. split; [done|].
    destruct (insert_accepts data) eqn:Hacc;
      [|by rewrite add_transaction_refused].
    rewrite add_transaction_log by done.
    etrans; [exact Ht|]. by apply prefix_app_r.
  - intros confirm_button db HP. by rewrite reset_application_idle.
Qed.

Lemma script_run_keeps_rows_witness :
  let receipt :=
    Upload "receipt.pdf"
           (λ db files, (db, <["./uploads/receipt.pdf" := Uploaded "scan"]> files,
                         Returned)) in
  let w := Widgets "Till" (real 5) true
                   "2024-01-06" "DEPOSIT" "cash in" (real 20) None (Some "Till")
                   (Some receipt) true true false in
  let db' := (script_run 1 w ∅ (Some two_accounts) ∅).1.1.2 in
  [(1, "Safe"); (2, "Bank")]
    `prefix_of` (λ a, (a_id a, a_name a)) <$> get_accounts db' ∧
  accounts db'
  = [Account 1 "Safe" (Some (real 1000)); Account 2 "Bank" (Some (real 0));
     Account 3 "Till" (Some (real 25))] ∧
  length (transactions db') = 1%nat.
Proof.
  intros receipt w db'.
  assert (Hflag : (∅ : gmap string bool) !! "confirm_reset" ≠ Some true)
    by (rewrite lookup_empty; discriminate).
  assert (Hup : upload_outside (w_uploaded_file w)) by (by intros db files).
  destruct (script_run_keeps_rows 1 w ∅ (Some two_accounts) ∅ Hflag Hup)
    as [Ha _].
  split_and!; [exact Ha|reflexivity|reflexivity].
Defined.

(** X15.  A run in which "Add Account" is pressed with a name some account
    has ends at [add_account], with the exception of the UNIQUE constraint:
    the database, the session state and the files are what they were when
    the run started, so a transaction entered in the same run is not added,
    a pending reset stays pending and nothing is exported. *)
Theorem script_run_stops_at_duplicate_name
    (now : Z) (w : widgets) (session_state : gmap string bool)
    (file : option database) (files : gmap string disk_file) :
  w_add_account w = true →
  w_account_name w ∈ a_name <$> get_accounts (init_database file) →
  script_run now w session_state file files
  = (session_state, init_database file, files,
     Raised (IntegrityError "UNIQUE constraint failed: accounts.name")).
Proof.
  intros Hadd Hdup. unfold script_run, get_accounts in *.
  by rewrite Hadd, insert_rejects_known_name.
Qed.

Lemma script_run_stops_at_duplicate_name_witness :
  let w := Widgets "Safe" (real 5) true
                   "2024-01-06" "DEPOSIT" "cash in" (real 20) None (Some "Bank")
                   None true false true in
  let session_state : gmap string bool := {["confirm_reset" := true]} in
  script_run 1 w session_state (Some two_accounts) ∅
  = (session_state, two_accounts, ∅,
     Raised (IntegrityError "UNIQUE constraint failed: accounts.name")).
Proof.
  intros w session_state.
  apply (script_run_stops_at_duplicate_name 1 w session_state (Some two_accounts) ∅);
    [reflexivity|]. left.
Defined.

(** ** Sessions *)

(** What every step keeps, a session keeps when no upload reaches the
    database file. *)
Lemma app_runs_invariant (P : database → Prop) (inputs : list (Z * widgets)) :
  (∀ name balance db, P db → P (add_account name balance db).1) →
  (∀ data db, call_resolves (AddTransaction data) db = true →
              P db → P (add_transaction data db).1) →
  (∀ confirm_button session_state db,
     P db → P (reset_application confirm_button session_state db).1.2) →
  Forall (λ input, upload_outside (w_uploaded_file input.2)) inputs →
  ∀ s, P (init_database (app_file s)) →
       P (init_database (app_file (app_runs inputs s))).
Proof.
  intros Hadd Htx Hreset Hup.
  induction Hup as [|input inputs Hin Hup IH]; intros s Hs; [done|].
  simpl. apply IH. unfold app_run.
  pose proof (script_run_invariant P input.1 input.2 (app_session s) (app_file s)
                (app_files s) Hin Hs Hadd Htx
                (λ b db, Hreset b (app_session s) db)) as Hrun.
  by destruct (script_run input.1 input.2 (app_session s) (app_file s) (app_files s))
    as [[[ss' db'] files'] out].
Qed.

Lemma integrity_reset confirm_button session_state db :
  db_ok db ∧ log_resolves db →
  db_ok (reset_application confirm_button session_state db).1.2 ∧
  log_resolves (reset_application confirm_button session_state db).1.2.
Proof.
  intros [Hok Href].
  destruct (decide (session_state !! "confirm_reset" = Some true)) as [Hflag|Hflag].
  - rewrite reset_application_confirmed by done. simpl.
    split; [apply db_ok_empty|]. intros t Ht. by apply elem_of_nil in Ht.
  - by rewrite reset_application_idle.
Qed.

(** X18.  SQLite does not enforce the FOREIGN KEY clauses of the schema, but the
    script keeps what they ask for.  In every state a session reaches
    from the first page load when no upload reaches the database file, whatever the widgets return in
    each run, the database is well formed and every reference in the log is
    null or names an existing account: the form takes its ids from the
    accounts it lists, and nothing deletes an account without deleting the
    log. *)
Theorem session_keeps_references (inputs : list (Z * widgets)) (db : database) :
  Forall (λ input, upload_outside (w_uploaded_file input.2)) inputs →
  app_file (app_runs inputs app_start) = Some db →
  db_ok db ∧
  ∀ t, t ∈ transactions db →
       (t_from_account_id t = None ∨
        account_exists (t_from_account_id t) db = true) ∧
       (t_to_account_id t = None ∨
        account_exists (t_to_account_id t) db = true).
Proof.
  intros Hup Hdb.
  pose proof (app_runs_invariant (λ db, db_ok db ∧ log_resolves db) inputs) as Hinv.
  destruct (Hinv) with (s := app_start) as [Hok Href]; try done.
  - intros name balance db0 [Hok Href].
    split; [by apply add_account_ok|by apply log_resolves_add_account].
  - intros data db0 Hres [Hok Href].
    split; [by apply add_transaction_ok|by apply log_resolves_add_transaction].
  - intros b ss db0. apply integrity_reset.
  - split; [apply db_ok_empty|]. intros t Ht. by apply elem_of_nil in Ht.
  - rewrite Hdb in Hok, Href. simpl in Hok, Href.
    split; [done|]. intros t Ht. destruct (Href t Ht) as [Hfrom Hto].
    split.
    + destruct (t_from_account_id t); [by right|by left].
    + destruct (t_to_account_id t); [by right|by left].
Qed.

Lemma session_keeps_references_witness :
  let inputs :=
    [(1, Widgets "Safe" (real 1000) true "d" "DEPOSIT" "x" (real 0) None None None
                 false false false);
     (2, Widgets "Bank" (real 0) true "d" "DEPOSIT" "x" (real 0) None None None
                 false false false);
     (3, Widgets "Bank" (real 0) false "2024-01-01" "TRANSFER" "to bank" (real 200)
                 (Some "Safe") (Some "Bank") None true false false)] in
  ∃ db, app_file (app_runs inputs app_start) = Some db ∧
        length (transactions db) = 1%nat ∧ db_ok db.
Proof.
  intros inputs. eexists. split; [reflexivity|]. split; [reflexivity|].
  apply (session_keeps_references inputs); [|reflexivity].
  repeat constructor.
Defined.

(** ** Sessions as runs of calls *)

Lemma run_app (calls1 calls2 : list call) (l : ledger) :
  run (calls1 ++ calls2) l = run calls2 (run calls1 l).
Proof. apply foldl_app. Qed.

Lemma run_resolves_app (calls1 calls2 : list call) : ∀ l : ledger,
  run_resolves (calls1 ++ calls2) l
  = run_resolves calls1 l && run_resolves calls2 (run calls1 l).
Proof.
  induction calls1 as [|c calls1 IH]; intros l; [done|].
  simpl. by rewrite IH, andb_assoc.
Qed.

Lemma store_step_add_account name balance l :
  store (step (AddAccount name balance) l) = (add_account name balance (store l)).1.
Proof.
  simpl. by destruct (add_account name balance (store l)) as [db' [|e]].
Qed.

Lemma reset_application_db confirm_button session_state db :
  session_state !! "confirm_reset" = Some true →
  (reset_application confirm_button session_state db).1.2
  = store (step ConfirmedReset (Ledger db ∅)).
Proof.
  intros Hflag. simpl. unfold reset_application.
  by rewrite Hflag, lookup_singleton_eq.
Qed.

Lemma store_step (c : call) (l l' : ledger) :
  store l = store l' → store (step c l) = store (step c l').
Proof.
  intros Heq. destruct c as [name balance|data|].
  - by rewrite !store_step_add_account, Heq.
  - simpl. by rewrite Heq.
  - simpl. by rewrite Heq.
Qed.

Lemma reachable_snoc (c : call) (db : database) :
  reachable db →
  call_resolves c db = true →
  (∀ l, store l = db → reachable (store (step c l))).
Proof.
  intros (calls & Hres & Hrun) Hc l Hl.
  exists (calls ++ [c]).
  rewrite run_resolves_app, run_app, Hres.
  cbn [run_resolves run foldl andb]. rewrite Hrun, Hc.
  split; [done|]. apply store_step. by rewrite Hrun.
Qed.

(** X19.  Every database a session reaches, when no upload reaches the
    database file, is the database
    some list of [add_account], [add_transaction] and confirmed reset calls
    reaches from the empty database, and in that list every transaction
    references existing accounts only: through the page the ledger never
    leaves the runs whose references resolve. *)
Theorem session_is_resolving_run (inputs : list (Z * widgets)) (db : database) :
  Forall (λ input, upload_outside (w_uploaded_file input.2)) inputs →
  app_file (app_runs inputs app_start) = Some db →
  ∃ calls, run_resolves calls (Ledger empty_db ∅) = true ∧
           store (run calls (Ledger empty_db ∅)) = db.
Proof.
  intros Hup Hdb.
  pose proof (app_runs_invariant reachable inputs) as Hinv.
  destruct (Hinv) with (s := app_start) as (calls & Hres & Hrun); try done.
  - intros name balance db0 Hdb0.
    rewrite <- (store_step_add_account name balance (Ledger db0 ∅)).
    by apply (reachable_snoc (AddAccount name balance) db0).
  - intros data db0 Hres Hdb0.
    by apply (reachable_snoc (AddTransaction data) db0 Hdb0 Hres (Ledger db0 ∅)).
  - intros b ss db0 Hdb0.
    destruct (decide (ss !! "confirm_reset" = Some true)) as [Hflag|Hflag];
      [|by rewrite reset_application_idle].
    rewrite (reset_application_db _ _ _ Hflag).
    by apply (reachable_snoc ConfirmedReset db0).
  - by exists [].
  - exists calls. rewrite Hdb in Hrun. by split.
Qed.

Lemma session_is_resolving_run_witness :
  let inputs :=
    [(1, Widgets "Safe" (real 1000) true "d" "DEPOSIT" "x" (real 0) None None None
                 false false false);
     (2, Widgets "Safe" (real 0) false "2024-01-02" "DEPOSIT" "cash in" (real 50)
                 None (Some "Safe") None true false false)] in
  ∃ db calls, app_file (app_runs inputs app_start) = Some db ∧
              accounts db = [Account 1 "Safe" (Some (real 1050))] ∧
              run_resolves calls (Ledger empty_db ∅) = true ∧
              store (run calls (Ledger empty_db ∅)) = db.
Proof.
  intros inputs. eexists.
  assert (Hup : Forall (λ input : Z * widgets, upload_outside (w_uploaded_file input.2)) inputs)
    by repeat constructor.
  destruct (session_is_resolving_run inputs _ Hup eq_refl) as (calls & Hres & Hrun).
  exists calls. by split_and!.
Defined.

(** X20.  In every state of a session in which no upload reaches the
    database file the ids of the accounts
    are 1, 2, ..., n in the order the page lists them, and the ids of the log
    1, 2, ..., m. *)
Theorem session_row_ids (inputs : list (Z * widgets)) (db : database) :
  Forall (λ input, upload_outside (w_uploaded_file input.2)) inputs →
  app_file (app_runs inputs app_start) = Some db →
  a_id <$> get_accounts db = seqZ 1 (Z.of_nat (length (get_accounts db))) ∧
  t_id <$> transactions db = seqZ 1 (Z.of_nat (length (transactions db))).
Proof.
  intros Hup Hdb.
  pose proof (app_runs_invariant both_dense inputs) as Hinv.
  destruct (Hinv) with (s := app_start) as [[Ha _] [Ht _]]; try done.
  - intros name balance db0. apply dense_add_account.
  - intros data db0 _. apply dense_add_transaction.
  - intros b ss db0. apply dense_reset.
  - rewrite Hdb in Ha, Ht. simpl in Ha, Ht.
    rewrite length_fmap in Ha. rewrite length_fmap in Ht. by split.
Qed.

Lemma session_row_ids_witness :
  let inputs :=
    [(1, Widgets "Safe" (real 1000) true "d" "DEPOSIT" "x" (real 0) None None None
                 false false false);
     (2, Widgets "Bank" (real 0) true "d" "DEPOSIT" "x" (real 0) None None None
                 false false false)] in
  ∃ db, app_file (app_runs inputs app_start) = Some db ∧
        a_id <$> get_accounts db = [1; 2].
Proof.
  intros inputs. eexists. split; [reflexivity|].
  assert (Hup : Forall (λ input : Z * widgets, upload_outside (w_uploaded_file input.2)) inputs)
    by repeat constructor.
  destruct (session_row_ids inputs _ Hup eq_refl) as [Ha _].
  rewrite Ha. reflexivity.
Defined.
